(** * Survey frontend: the controller of [src/App.tsx]

    A shallow embedding of the React component [App] and of its helpers
    ([apiFetch], [mapApiErrorMessage], the context collectors, the loader
    [fetchStructure] and the vote handler [handleVote]), followed by the
    properties of the specification that were checked against it.

    Conventions of the embedding:
    - a JavaScript [number] that holds an identifier or an HTTP status is a [Z];
    - [null] and [undefined] are [None];
    - a string is a sequence of UTF-8 bytes;
    - the React state of the component is the record [State]; every handler is
      a function on it, written as the sequence of setter calls of the source;
    - what the network answers is an input of the model. *)

From Stdlib Require Import ZArith String Ascii List Bool Lia.
From stdpp Require Import base option list gmap strings.

Import ListNotations.
#[local] Set Warnings "-register-all".
Local Open Scope Z_scope.
Local Open Scope string_scope.
Local Open Scope list_scope.

(** ** JavaScript strings *)

Module Js.

(** [a || b] on values that are a string, [null] or [undefined]:
    the empty string is falsy. *)
Definition truthy (a : option string) : bool :=
  match a with
  | Some s => negb (String.eqb s "")
  | None => false
  end.

Definition or (a b : option string) : option string :=
  if truthy a then a else b.

(** [a || 'literal']. *)
Definition or_else (a : option string) (b : string) : string :=
  match a with
  | Some s => if String.eqb s "" then b else s
  | None => b
  end.

(** [s.includes(needle)]. *)
Fixpoint includes (s needle : string) : bool :=
  String.prefix needle s
  || match s with
     | EmptyString => false
     | String _ rest => includes rest needle
     end.

Definition upperAscii (c : ascii) : bool :=
  let n := nat_of_ascii c in (Nat.leb 65 n && Nat.leb n 90)%bool.

(** The second byte of a two-byte letter of U+00C0..U+00DE, except the
    multiplication sign U+00D7. *)
Definition upperLatin1 (c : ascii) : bool :=
  let n := nat_of_ascii c in
  (Nat.leb 128 n && Nat.leb n 158 && negb (Nat.eqb n 151))%bool.

Definition shift32 (c : ascii) : ascii := ascii_of_nat (nat_of_ascii c + 32).

(** [s.toLowerCase()] on the letters that can reach the needles searched
    by the program: the ASCII letters and the accented letters of Latin-1
    (two bytes, the first one 0xC3).  Other code points are kept. *)
Fixpoint toLowerCase (s : string) : string :=
  match s with
  | EmptyString => EmptyString
  | String c rest =>
      if upperAscii c then String (shift32 c) (toLowerCase rest)
      else if Nat.eqb (nat_of_ascii c) 195 then
        match rest with
        | String d rest' =>
            String c (String (if upperLatin1 d then shift32 d else d)
                             (toLowerCase rest'))
        | EmptyString => String c EmptyString
        end
      else String c (toLowerCase rest)
  end.

(** Lower-casing of the ASCII letters only: what the [i] flag of a regular
    expression without the [u] flag identifies. *)
Fixpoint foldAscii (s : string) : string :=
  match s with
  | EmptyString => EmptyString
  | String c rest =>
      String (if upperAscii c then shift32 c else c) (foldAscii rest)
  end.

(** [/pattern/i.test(s)] for a pattern that is a literal text. *)
Definition testI (pattern s : string) : bool :=
  includes (foldAscii s) (foldAscii pattern).

End Js.

(** ** JSON bodies *)

(** A parsed JSON value.  A number is carried as the text that
    [Number.prototype.toString] gives it: the program only ever prints the
    numbers of a body. *)
Inductive Json : Type :=
| JNull
| JBool (b : bool)
| JNumber (text : string)
| JString (s : string)
| JArray (items : list Json)
| JObject (fields : list (string * Json)).

(** [String(j)]: arrays print their elements separated by commas, [null]
    elements as the empty text. *)
Fixpoint toString (j : Json) : string :=
  match j with
  | JNull => "null"
  | JBool true => "true"
  | JBool false => "false"
  | JNumber text => text
  | JString s => s
  | JArray items =>
      String.concat ","
        (List.map (fun x => match x with JNull => "" | _ => toString x end) items)
  | JObject _ => "[object Object]"
  end.

(** [items.join(sep)]. *)
Definition join (sep : string) (items : list Json) : string :=
  String.concat sep
    (List.map (fun x => match x with JNull => "" | _ => toString x end) items).

(** [fields[key]] on a parsed object: of two members with one name the
    later one wins; a name that is not there gives [undefined]. *)
Fixpoint getProp (key : string) (fields : list (string * Json)) : option Json :=
  match fields with
  | [] => None
  | (k, v) :: rest =>
      match getProp key rest with
      | Some v' => Some v'
      | None => if String.eqb k key then Some v else None
      end
  end.

(** ** The API client *)

(** [type ApiError]. *)
Record ApiError : Type := mkApiError {
  status : option Z;
  message : string;
  details : option string;
}.

(** How a [fetch] settles.  A response with [response.ok] carries its body
    at the type the caller casts it to ([payload as T]: the server is taken
    to answer with a body of that type); a response without carries its
    status and its body ([JNull] when the body is not JSON); a rejected
    [fetch] carries the message of the exception. *)
Inductive Settled (T : Type) : Type :=
| Success (value : T)
| HttpFailure (httpStatus : Z) (payload : Json)
| Rejected (reason : string).
Arguments Success {T} value.
Arguments HttpFailure {T} httpStatus payload.
Arguments Rejected {T} reason.

(** What an [await] of an [async] call gives: a value or an exception. *)
Inductive Outcome (T : Type) : Type :=
| Returned (value : T)
| Thrown (error : ApiError).
Arguments Returned {T} value.
Arguments Thrown {T} error.

Definition NOT_FOUND_MESSAGE : string := "Pesquisa não encontrada ou expirada.".
Definition GENERIC_MESSAGE : string := "Não foi possível completar a ação.".

(** [payload && typeof payload === 'object' ? payload : null], as the
    members that [body?.name] can read. *)
Definition bodyOf (payload : Json) : option (list (string * Json)) :=
  match payload with
  | JObject fields => Some fields
  | JArray _ => Some []
  | _ => None
  end.

Definition bodyProp (body : option (list (string * Json))) (key : string)
  : option Json :=
  match body with
  | Some fields => getProp key fields
  | None => None
  end.

(** The [if (!response.ok)] block of [apiFetch]: the error that is thrown. *)
Definition normalizeError (httpStatus : Z) (payload : Json) : ApiError :=
  let body := bodyOf payload in
  let rawMessage :=
    match bodyProp body "message" with
    | Some (JString m) => Some m
    | _ => None
    end in
  let message :=
    if Z.eqb httpStatus 404 then NOT_FOUND_MESSAGE
    else Js.or_else rawMessage GENERIC_MESSAGE in
  let details :=
    match bodyProp body "details" with
    | Some (JString d) => Some d
    | Some (JArray items) => Some (join " | " items)
    | _ => None
    end in
  {| status := Some httpStatus; message := message; details := details |}.

(** [apiFetch]. *)
Definition apiFetch {T : Type} (response : Settled T) : Outcome T :=
  match response with
  | Success value => Returned value
  | HttpFailure httpStatus payload => Thrown (normalizeError httpStatus payload)
  | Rejected reason =>
      Thrown {| status := None; message := reason; details := None |}
  end.

Definition TOO_MANY_MESSAGE : string :=
  "Muitas requisições. Tente novamente em 1 minuto.".
Definition ALREADY_VOTED_MESSAGE : string :=
  "Você já votou recentemente nesta pesquisa neste dispositivo.".
Definition EXPIRED_MESSAGE : string := "Esta pesquisa expirou.".

Definition statusIs (s : option Z) (n : Z) : bool :=
  match s with
  | Some k => Z.eqb k n
  | None => false
  end.

Definition withMessage (error : ApiError) (m : string) : ApiError :=
  {| status := status error; message := m; details := details error |}.

(** [mapApiErrorMessage]. *)
Definition mapApiErrorMessage (error : ApiError) : ApiError :=
  let normalized := Js.toLowerCase (Js.or_else (Some (message error)) "") in
  if statusIs (status error) 429 then withMessage error TOO_MANY_MESSAGE
  else if Js.includes normalized "já recebemos um voto"
          || statusIs (status error) 409
  then withMessage error ALREADY_VOTED_MESSAGE
  else if Js.includes normalized "expirada" then withMessage error EXPIRED_MESSAGE
  else error.

(** ** The data of a survey *)

Module Option.
(** [type Option]. *)
Record t : Type := mk { id : Z; texto : string; ativo : bool }.
End Option.

Module Question.
(** [type Question]. *)
Record t : Type := mk {
  id : Z;
  texto : string;
  ordem : Z;
  options : list Option.t;
}.
End Question.

Module SurveyStructure.
(** [type SurveyStructure]. *)
Record t : Type := mk {
  id : Z;
  titulo : string;
  descricao : option string;
  description : option string;
  ativo : bool;
  dataValidade : option string;
  questions : list Question.t;
}.
End SurveyStructure.

Module VoteResponse.
(** [type VoteResponse]. *)
Record t : Type := mk {
  voteId : Z;
  sessionId : option Z;
  antifraudToken : option string;
}.
End VoteResponse.

(** The seven context members of [VotePayload]: what [handleVote] builds as
    [{ source, ...geo, ...device }] and what the local store keeps. *)
Module SourceContext.
Record t : Type := mk {
  source : option string;
  country : option string;
  state : option string;
  city : option string;
  deviceType : option string;
  operatingSystem : option string;
  browser : option string;
}.
End SourceContext.

Module VotePayload.
(** [type VotePayload].  [optionId] is what [selectedOptions[question.id]]
    gave, [None] for [undefined]; [status] is always ['COMPLETED']. *)
Record t : Type := mk {
  surveyId : Z;
  questionId : Z;
  optionId : option Z;
  context : SourceContext.t;
  status : string;
  startedAt : string;
  completedAt : string;
}.
End VotePayload.

(** ** The context collector *)

(** What the handlers read from the browser: the parsed query string of
    [window.location.search] in the order of the URL, [navigator.userAgent],
    and the record kept under [SOURCE_STORAGE_KEY] ([None] when there is
    none or when it does not parse); [storageWritable] tells whether
    [localStorage.setItem] goes through or throws (a full or a disabled
    store). *)
Record Browser : Type := mkBrowser {
  search : list (string * string);
  userAgent : string;
  storage : option SourceContext.t;
  storageWritable : bool;
}.

(** [params.get(name)]: the first value of that name. *)
Fixpoint paramsGet (params : list (string * string)) (name : string)
  : option string :=
  match params with
  | [] => None
  | (k, v) :: rest => if String.eqb k name then Some v else paramsGet rest name
  end.

(** [getSourceParam]. *)
Definition getSourceParam (b : Browser) : option string :=
  Js.or (paramsGet (search b) "source") (paramsGet (search b) "utm_source").

(** [getGeoParams]: country, state and city. *)
Definition getGeoParams (b : Browser)
  : option string * option string * option string :=
  (paramsGet (search b) "country",
   paramsGet (search b) "state",
   paramsGet (search b) "city").

(** [getStoredSourceContext]. *)
Definition getStoredSourceContext (b : Browser) : option SourceContext.t :=
  storage b.

(** [getDeviceContext]: device type, operating system and browser. *)
Definition getDeviceContext (b : Browser)
  : option string * option string * option string :=
  let ua := Js.or_else (Some (userAgent b)) "" in
  let isMobile := Js.testI "Mobi" ua || Js.testI "Android" ua in
  let deviceType := if isMobile then "mobile" else "desktop" in
  let operatingSystem :=
    if Js.testI "Android" ua then Some "Android"
    else if Js.testI "iPhone" ua || Js.testI "iPad" ua || Js.testI "iPod" ua
    then Some "iOS"
    else if Js.testI "Windows" ua then Some "Windows"
    else if Js.testI "Mac OS X" ua then Some "macOS"
    else if Js.testI "Linux" ua then Some "Linux"
    else None in
  let browser :=
    if Js.testI "Chrome/" ua && negb (Js.testI "Edg/" ua)
       && negb (Js.testI "OPR/" ua)
    then Some "Chrome"
    else if Js.testI "Edg/" ua then Some "Edge"
    else if Js.testI "Safari" ua && negb (Js.testI "Chrome/" ua)
    then Some "Safari"
    else if Js.testI "Firefox/" ua then Some "Firefox"
    else if Js.testI "OPR/" ua then Some "Opera"
    else None in
  (Some deviceType, operatingSystem, browser).

(** [storedSourceContext?.member]. *)
Definition storedField (stored : option SourceContext.t)
    (member : SourceContext.t -> option string) : option string :=
  match stored with
  | Some c => member c
  | None => None
  end.

(** The values [source], [geo] and [device] that [handleVote] computes
    before its loop: each one is [fresh || stored?.member || null]. *)
Definition voteContext (b : Browser) : SourceContext.t :=
  let storedSourceContext := getStoredSourceContext b in
  let stored := storedField storedSourceContext in
  let '(country, state, city) := getGeoParams b in
  let '(deviceType, operatingSystem, browser) := getDeviceContext b in
  {| SourceContext.source :=
       Js.or (Js.or (getSourceParam b) (stored SourceContext.source)) None;
     SourceContext.country :=
       Js.or (Js.or country (stored SourceContext.country)) None;
     SourceContext.state :=
       Js.or (Js.or state (stored SourceContext.state)) None;
     SourceContext.city :=
       Js.or (Js.or city (stored SourceContext.city)) None;
     SourceContext.deviceType :=
       Js.or (Js.or deviceType (stored SourceContext.deviceType)) None;
     SourceContext.operatingSystem :=
       Js.or (Js.or operatingSystem (stored SourceContext.operatingSystem)) None;
     SourceContext.browser :=
       Js.or (Js.or browser (stored SourceContext.browser)) None |}.

(** [persistSourceContext]: best effort only; when [setItem] throws, the
    exception is swallowed and the store stays as it was. *)
Definition persistSourceContext (context : SourceContext.t) (b : Browser)
  : Browser :=
  if storageWritable b then
    {| search := search b; userAgent := userAgent b; storage := Some context;
       storageWritable := true |}
  else b.

(** ** The state of the component *)

(** The [useState] cells of [App] and the one [useRef] that holds data
    ([voteStartedAtRef], a timestamp in ISO text). *)
Record State : Type := mkState {
  surveyId : option Z;
  structure : option SurveyStructure.t;
  selectedOptions : gmap Z Z;
  structureLoading : bool;
  submitting : bool;
  errorMessage : option string;
  errorDetails : option string;
  errorStatus : option Z;
  voteResults : list VoteResponse.t;
  voteStartedAtRef : option string;
  missingQuestionIds : list Z;
  showThankYou : bool;
}.

(** The state at mount, for the identifier read from the path. *)
Definition initialState (id : option Z) : State :=
  {| surveyId := id; structure := None; selectedOptions := ∅;
     structureLoading := false; submitting := false;
     errorMessage := None; errorDetails := None; errorStatus := None;
     voteResults := []; voteStartedAtRef := None;
     missingQuestionIds := []; showThankYou := false |}.

Definition setSurveyId (v : option Z) (st : State) : State :=
  mkState v (structure st) (selectedOptions st) (structureLoading st)
    (submitting st) (errorMessage st) (errorDetails st) (errorStatus st)
    (voteResults st) (voteStartedAtRef st) (missingQuestionIds st)
    (showThankYou st).

Definition setStructure (v : option SurveyStructure.t) (st : State) : State :=
  mkState (surveyId st) v (selectedOptions st) (structureLoading st)
    (submitting st) (errorMessage st) (errorDetails st) (errorStatus st)
    (voteResults st) (voteStartedAtRef st) (missingQuestionIds st)
    (showThankYou st).

Definition setSelectedOptions (f : gmap Z Z -> gmap Z Z) (st : State) : State :=
  mkState (surveyId st) (structure st) (f (selectedOptions st))
    (structureLoading st) (submitting st) (errorMessage st) (errorDetails st)
    (errorStatus st) (voteResults st) (voteStartedAtRef st)
    (missingQuestionIds st) (showThankYou st).

Definition setStructureLoading (v : bool) (st : State) : State :=
  mkState (surveyId st) (structure st) (selectedOptions st) v
    (submitting st) (errorMessage st) (errorDetails st) (errorStatus st)
    (voteResults st) (voteStartedAtRef st) (missingQuestionIds st)
    (showThankYou st).

Definition setSubmitting (v : bool) (st : State) : State :=
  mkState (surveyId st) (structure st) (selectedOptions st)
    (structureLoading st) v (errorMessage st) (errorDetails st)
    (errorStatus st) (voteResults st) (voteStartedAtRef st)
    (missingQuestionIds st) (showThankYou st).

Definition setErrorMessage (v : option string) (st : State) : State :=
  mkState (surveyId st) (structure st) (selectedOptions st)
    (structureLoading st) (submitting st) v (errorDetails st)
    (errorStatus st) (voteResults st) (voteStartedAtRef st)
    (missingQuestionIds st) (showThankYou st).

Definition setErrorDetails (v : option string) (st : State) : State :=
  mkState (surveyId st) (structure st) (selectedOptions st)
    (structureLoading st) (submitting st) (errorMessage st) v
    (errorStatus st) (voteResults st) (voteStartedAtRef st)
    (missingQuestionIds st) (showThankYou st).

Definition setErrorStatus (v : option Z) (st : State) : State :=
  mkState (surveyId st) (structure st) (selectedOptions st)
    (structureLoading st) (submitting st) (errorMessage st) (errorDetails st)
    v (voteResults st) (voteStartedAtRef st) (missingQuestionIds st)
    (showThankYou st).

Definition setVoteResults (v : list VoteResponse.t) (st : State) : State :=
  mkState (surveyId st) (structure st) (selectedOptions st)
    (structureLoading st) (submitting st) (errorMessage st) (errorDetails st)
    (errorStatus st) v (voteStartedAtRef st) (missingQuestionIds st)
    (showThankYou st).

Definition setVoteStartedAt (v : option string) (st : State) : State :=
  mkState (surveyId st) (structure st) (selectedOptions st)
    (structureLoading st) (submitting st) (errorMessage st) (errorDetails st)
    (errorStatus st) (voteResults st) v (missingQuestionIds st)
    (showThankYou st).

Definition setMissingQuestionIds (f : list Z -> list Z) (st : State) : State :=
  mkState (surveyId st) (structure st) (selectedOptions st)
    (structureLoading st) (submitting st) (errorMessage st) (errorDetails st)
    (errorStatus st) (voteResults st) (voteStartedAtRef st)
    (f (missingQuestionIds st)) (showThankYou st).

Definition setShowThankYou (v : bool) (st : State) : State :=
  mkState (surveyId st) (structure st) (selectedOptions st)
    (structureLoading st) (submitting st) (errorMessage st) (errorDetails st)
    (errorStatus st) (voteResults st) (voteStartedAtRef st)
    (missingQuestionIds st) v.

(** The setter calls of one handler, or of one stretch of an [async]
    function between two [await]s, in the order of the source.  React applies
    them together: the page is rendered from the state after the last one. *)
Definition batch (calls : list (State -> State)) (st : State) : State :=
  fold_left (fun s call => call s) calls st.

(** [!surveyId]: [null] and [0] are falsy. *)
Definition noId (id : option Z) : bool :=
  match id with
  | Some n => Z.eqb n 0
  | None => true
  end.

(** [!selectedOptions[id]]: a missing entry and the number [0] are falsy. *)
Definition notSelected (selected : gmap Z Z) (id : Z) : bool :=
  match selected !! id with
  | Some o => Z.eqb o 0
  | None => true
  end.

(** ** The survey loader *)

Definition NO_URL_MESSAGE : string :=
  "URL da pesquisa não informada. Use /surveys/{id}.".
Definition NOT_ACTIVE_MESSAGE : string := "Esta pesquisa não está ativa.".
Definition LOAD_FAILED_MESSAGE : string :=
  "Não foi possível carregar a pesquisa selecionada.".

(** [handlePopstate], for the identifier that the new path gives. *)
Definition handlePopstate (id : option Z) : State -> State :=
  batch [ setSurveyId id;
        setSelectedOptions (fun _ => ∅);
        setVoteResults [];
        setErrorMessage None;
        setErrorDetails None;
        setErrorStatus None;
        setVoteStartedAt None;
        setMissingQuestionIds (fun _ => []);
        setShowThankYou false ].

(** [fetchStructure] up to its [await]: the new state, and the identifier
    the structure is requested for when a request is sent. *)
Definition fetchStructure_start (st : State) : State * option Z :=
  if noId (surveyId st) then
    (batch [ setStructure None;
           setErrorMessage (Some NO_URL_MESSAGE);
           setErrorStatus None ] st,
     None)
  else
    (batch [ setStructureLoading true;
           setStructure None;
           setSelectedOptions (fun _ => ∅);
           setErrorMessage None;
           setErrorDetails None;
           setErrorStatus None;
           setVoteResults [];
           setMissingQuestionIds (fun _ => []);
           setShowThankYou false;
           setShowThankYou false ] st,
     surveyId st).

(** [fetchStructure] from its [await] on: [now] is what [new Date()] gives
    when the response is there. *)
Definition fetchStructure_resume (now : string)
    (response : Settled SurveyStructure.t) : State -> State :=
  match apiFetch response with
  | Returned data =>
      let isActive := SurveyStructure.ativo data in
      if negb isActive then
        batch [ setStructure None;
              setErrorMessage (Some NOT_ACTIVE_MESSAGE);
              setErrorDetails None;
              setErrorStatus None;
              setStructureLoading false ]
      else
        batch [ setVoteStartedAt (Some now);
              setStructure (Some data);
              setStructureLoading false ]
  | Thrown err =>
      batch [ setErrorMessage
              (Some (Js.or_else (Some (message err)) LOAD_FAILED_MESSAGE));
            setErrorDetails (Js.or (details err) None);
            setErrorStatus (status err);
            setStructureLoading false ]
  end.

(** ** The vote submission controller *)

Definition SELECT_MESSAGE : string :=
  "Selecione uma pergunta e uma opção para votar.".
Definition ANSWER_ALL_MESSAGE : string :=
  "Responda todas as perguntas para enviar seu voto.".
Definition VOTE_FAILED_MESSAGE : string :=
  "Não foi possível registrar seu voto.".

(** What the loop of [handleVote] reads: the values of the render in which
    the button was clicked and the constants computed before the loop. *)
Record Attempt : Type := mkAttempt {
  a_structure : SurveyStructure.t;
  a_selectedOptions : gmap Z Z;
  a_context : SourceContext.t;
  startedAtIso : string;
  completedAtIso : string;
}.

(** The [payload] of one iteration. *)
Definition buildPayload (a : Attempt) (question : Question.t) : VotePayload.t :=
  {| VotePayload.surveyId := SurveyStructure.id (a_structure a);
     VotePayload.questionId := Question.id question;
     VotePayload.optionId := a_selectedOptions a !! Question.id question;
     VotePayload.context := a_context a;
     VotePayload.status := "COMPLETED";
     VotePayload.startedAt := startedAtIso a;
     VotePayload.completedAt := completedAtIso a |}.

(** The constants of the [try] block: [now] is what [new Date()] gives. *)
Definition captureAttempt (b : Browser) (now : string) (st : State)
    (s : SurveyStructure.t) : Attempt :=
  {| a_structure := s;
     a_selectedOptions := selectedOptions st;
     a_context := voteContext b;
     startedAtIso := Js.or_else (voteStartedAtRef st) now;
     completedAtIso := now |}.

(** [handleVote] up to its loop: the two guards, then the resets and the
    constants.  [None] when a guard returned. *)
Definition handleVote_start (b : Browser) (now : string) (st : State)
  : State * option Attempt :=
  match structure st with
  | Some s =>
      if noId (surveyId st) then
        (batch [ setErrorMessage (Some SELECT_MESSAGE);
                 setErrorDetails None;
                 setErrorStatus None ] st,
         None)
      else
        let unanswered :=
          List.filter
            (fun question => notSelected (selectedOptions st) (Question.id question))
            (SurveyStructure.questions s) in
        if Nat.ltb 0 (List.length unanswered) then
          (batch [ setErrorMessage (Some ANSWER_ALL_MESSAGE);
                   setErrorDetails None;
                   setErrorStatus None;
                   setMissingQuestionIds
                     (fun _ => List.map Question.id unanswered) ] st,
           None)
        else
          (batch [ setSubmitting true;
                   setErrorMessage None;
                   setErrorDetails None;
                   setVoteResults [];
                   setMissingQuestionIds (fun _ => []);
                   setShowThankYou false ] st,
           Some (captureAttempt b now st s))
  | None =>
      (batch [ setErrorMessage (Some SELECT_MESSAGE);
               setErrorDetails None;
               setErrorStatus None ] st,
       None)
  end.

(** The end of the [try] block, then [finally]. *)
Definition handleVote_succeed (responses : list VoteResponse.t) : State -> State :=
  batch [ setVoteResults responses;
          setShowThankYou true;
          setSubmitting false ].

(** The [catch] block, then [finally]. *)
Definition handleVote_fail (error : ApiError) : State -> State :=
  let err := mapApiErrorMessage error in
  batch [ setErrorMessage
            (Some (Js.or_else (Some (message err)) VOTE_FAILED_MESSAGE));
          setErrorDetails (Js.or (details err) None);
          setErrorStatus (status err);
          setSubmitting false ].

(** What goes over the network during an attempt, in order of time. *)
Inductive NetEvent : Type :=
| Sent (payload : VotePayload.t)
| Settles (response : Settled VoteResponse.t).

(** The end of an attempt. *)
Record Run (Server : Type) : Type := mkRun {
  final : State;
  browserAfter : Browser;
  serverAfter : Server;
  log : list NetEvent;
}.
Arguments mkRun {Server}.
Arguments final {Server}.
Arguments browserAfter {Server}.
Arguments serverAfter {Server}.
Arguments log {Server}.

Inductive Verdict : Type := Refused | Completed | Aborted.

Section Network.

(** The vote endpoint: from its state and a request, its next state and
    how the request settles. *)
Context {Server : Type}.
Variable post : Server -> VotePayload.t -> Server * Settled VoteResponse.t.

(** The [for ... of] loop: one request per question, each one sent when
    the one before has settled; the first exception leaves the loop. *)
Fixpoint submitAll (a : Attempt) (questions : list Question.t)
    (responses : list VoteResponse.t) (srv : Server)
  : Server * list NetEvent * Outcome (list VoteResponse.t) :=
  match questions with
  | [] => (srv, [], Returned responses)
  | question :: rest =>
      let payload := buildPayload a question in
      let '(srv1, response) := post srv payload in
      match apiFetch response with
      | Returned result =>
          let '(srv2, later, out) :=
            submitAll a rest (responses ++ [result]) srv1 in
          (srv2, Sent payload :: Settles response :: later, out)
      | Thrown error => (srv1, [Sent payload; Settles response], Thrown error)
      end
  end.

(** [handleVote], run to its end with nothing else happening meanwhile. *)
Definition handleVote (b : Browser) (now : string) (srv : Server) (st : State)
  : Run Server :=
  match handleVote_start b now st with
  | (st1, None) => mkRun st1 b srv []
  | (st1, Some a) =>
      let '(srv', events, out) :=
        submitAll a (SurveyStructure.questions (a_structure a)) [] srv in
      match out with
      | Returned responses =>
          mkRun (handleVote_succeed responses st1)
                (persistSourceContext (a_context a) b) srv' events
      | Thrown error => mkRun (handleVote_fail error st1) b srv' events
      end
  end.

(** By which way [handleVote] ended: a guard returned, the [try] block
    ran to its end, or the [catch] block ran. *)
Definition verdict (b : Browser) (now : string) (srv : Server) (st : State)
  : Verdict :=
  match handleVote_start b now st with
  | (_, None) => Refused
  | (_, Some a) =>
      match submitAll a (SurveyStructure.questions (a_structure a)) [] srv with
      | (_, _, Returned _) => Completed
      | (_, _, Thrown _) => Aborted
      end
  end.

(** The endpoint alone, fed a list of requests one after the other. *)
Fixpoint serve (srv : Server) (payloads : list VotePayload.t)
  : Server * list (Settled VoteResponse.t) :=
  match payloads with
  | [] => (srv, [])
  | payload :: rest =>
      let '(srv1, response) := post srv payload in
      let '(srv2, later) := serve srv1 rest in
      (srv2, response :: later)
  end.

End Network.

(** The requests of a log, and how they settled, each in order of time. *)
Fixpoint requests (events : list NetEvent) : list VotePayload.t :=
  match events with
  | [] => []
  | Sent payload :: rest => payload :: requests rest
  | Settles _ :: rest => requests rest
  end.

Fixpoint settlements (events : list NetEvent) : list (Settled VoteResponse.t) :=
  match events with
  | [] => []
  | Sent _ :: rest => settlements rest
  | Settles response :: rest => response :: settlements rest
  end.

(** A log in which every request settles before the next one is sent. *)
Fixpoint oneAtATime (payloads : list VotePayload.t)
    (replies : list (Settled VoteResponse.t)) : list NetEvent :=
  match payloads, replies with
  | payload :: ps, response :: rs =>
      Sent payload :: Settles response :: oneAtATime ps rs
  | _, _ => []
  end.

(** ** What is rendered *)

(** The page of the final [return] of [App], as far as it depends on the
    state: each member is one conditional block of the JSX. *)
Record FormPage : Type := mkFormPage {
  heading : string;
  loadingChip : bool;
  questionsShown : option (list Question.t);
  markedMissing : list Z;
  submitDisabled : bool;
  skeleton : bool;
  successPanel : option (list VoteResponse.t);
  errorPanel : option (string * option string);
}.

Inductive Screen : Type :=
| ThankYouScreen
| NotFoundScreen
| FormScreen (page : FormPage).

Definition DEFAULT_HEADING : string := "Participe e compartilhe sua opinião".

(** The body of [App] after the hooks: two early returns, then the page. *)
Definition render (st : State) : Screen :=
  if showThankYou st then ThankYouScreen
  else if statusIs (errorStatus st) 404 then NotFoundScreen
  else
    FormScreen
      {| heading :=
           Js.or_else
             (match structure st with
              | Some s => Some (SurveyStructure.titulo s)
              | None => None
              end) DEFAULT_HEADING;
         loadingChip := structureLoading st;
         questionsShown :=
           match structure st with
           | Some s => Some (SurveyStructure.questions s)
           | None => None
           end;
         markedMissing := missingQuestionIds st;
         submitDisabled :=
           submitting st
           || match structure st with
              | Some s => Nat.eqb (List.length (SurveyStructure.questions s)) 0
              | None => true
              end;
         skeleton :=
           structureLoading st
           && match structure st with Some _ => false | None => true end;
         successPanel :=
           if Nat.ltb 0 (List.length (voteResults st))
           then Some (voteResults st) else None;
         errorPanel :=
           if Js.truthy (errorMessage st)
           then Some (Js.or_else (errorMessage st) "",
                      Js.or (errorDetails st) None)
           else None |}.

(** The five outcomes of the view. *)
Inductive ViewOutcome : Type :=
| NotFound | ThankYou | FormError | FormSuccess | FormNeutral.

Definition isSome {A : Type} (o : option A) : bool :=
  match o with Some _ => true | None => false end.

(** Whether an outcome is the one on screen: a form outcome is the page
    with exactly the feedback panel of its name, or with none. *)
Definition active (o : ViewOutcome) (screen : Screen) : bool :=
  match o, screen with
  | ThankYou, ThankYouScreen => true
  | NotFound, NotFoundScreen => true
  | FormError, FormScreen p =>
      isSome (errorPanel p) && negb (isSome (successPanel p))
  | FormSuccess, FormScreen p =>
      isSome (successPanel p) && negb (isSome (errorPanel p))
  | FormNeutral, FormScreen p =>
      negb (isSome (successPanel p)) && negb (isSome (errorPanel p))
  | _, _ => false
  end.

(** The feedback panels on screen: success and error. *)
Definition panels (screen : Screen) : bool * bool :=
  match screen with
  | FormScreen p => (isSome (successPanel p), isSome (errorPanel p))
  | _ => (false, false)
  end.

(** The heading of the not-found page. *)
Definition NOT_FOUND_HEADING : string := "Pesquisa não encontrada ou expirada.".

(** The text by which a screen reports a failure: the heading of the
    not-found page, or the paragraph of the error panel of the form. *)
Definition failureText (screen : Screen) : option string :=
  match screen with
  | ThankYouScreen => None
  | NotFoundScreen => Some NOT_FOUND_HEADING
  | FormScreen p =>
      match errorPanel p with
      | Some (text, _) => Some text
      | None => None
      end
  end.

(** ** The component as a machine *)

(** A vote attempt whose loop waits for a response. *)
Record InFlightVote : Type := mkInFlightVote {
  attempt : Attempt;
  outstanding : Question.t;
  remaining : list Question.t;
  responses : list VoteResponse.t;
}.

(** The component between two events: its state, the browser, the
    identifiers of the structure requests that have not settled yet (oldest
    first) and the vote attempt under way. *)
Record Machine : Type := mkMachine {
  ui : State;
  browser : Browser;
  loads : list Z;
  vote : option InFlightVote;
}.

Inductive Event : Type :=
| Popstate (id : option Z) (query : list (string * string))
| Select (questionId optionId : Z)
| ClickVote (now : string)
| LoadSettles (n : nat) (now : string) (response : Settled SurveyStructure.t)
| VoteSettles (response : Settled VoteResponse.t)
| Reload.

(** The effect [useEffect(fetchStructure, [surveyId])]. *)
Definition runFetchEffect (m : Machine) : Machine :=
  let '(st, request) := fetchStructure_start (ui m) in
  {| ui := st; browser := browser m;
     loads := loads m ++ match request with Some id => [id] | None => [] end;
     vote := vote m |}.

(** The first render and its effects. *)
Definition mount (id : option Z) (b : Browser) : Machine :=
  runFetchEffect {| ui := initialState id; browser := b; loads := []; vote := None |}.

(** The [onChange] of the radio button of an option. *)
Definition handleChange (questionId optionId : Z) : State -> State :=
  batch [ setSelectedOptions (fun prev => <[questionId := optionId]> prev);
          setVoteResults [];
          setErrorMessage None;
          setErrorDetails None;
          setMissingQuestionIds
            (fun prev => List.filter (fun id => negb (Z.eqb id questionId)) prev) ].

(** Whether the page shows a radio button for that option. *)
Definition offered (screen : Screen) (questionId optionId : Z) : bool :=
  match screen with
  | FormScreen p =>
      match questionsShown p with
      | Some questions =>
          existsb
            (fun q =>
               Z.eqb (Question.id q) questionId
               && existsb (fun o => Z.eqb (Option.id o) optionId)
                          (Question.options q))
            questions
      | None => false
      end
  | _ => false
  end.

(** Whether the page shows the submit button, enabled. *)
Definition canSubmit (screen : Screen) : bool :=
  match screen with
  | FormScreen p => isSome (questionsShown p) && negb (submitDisabled p)
  | _ => false
  end.

Definition withUi (st : State) (m : Machine) : Machine :=
  {| ui := st; browser := browser m; loads := loads m; vote := vote m |}.

(** The list without its [n]-th element. *)
Definition dropNth {A : Type} (n : nat) (l : list A) : list A :=
  firstn n l ++ skipn (S n) l.

(** One event.  An event that the page does not offer, or a response that
    nothing waits for, changes nothing. *)
Definition step (m : Machine) (e : Event) : Machine :=
  match e with
  | Popstate id query =>
      let m1 :=
        {| ui := handlePopstate id (ui m);
           browser := {| search := query; userAgent := userAgent (browser m);
                         storage := storage (browser m);
                         storageWritable := storageWritable (browser m) |};
           loads := loads m; vote := vote m |} in
      if decide (id = surveyId (ui m)) then m1 else runFetchEffect m1
  | Select questionId optionId =>
      if offered (render (ui m)) questionId optionId
      then withUi (handleChange questionId optionId (ui m)) m
      else m
  | ClickVote now =>
      if canSubmit (render (ui m)) then
        match handleVote_start (browser m) now (ui m) with
        | (st1, None) => withUi st1 m
        | (st1, Some a) =>
            match SurveyStructure.questions (a_structure a) with
            | [] =>
                {| ui := handleVote_succeed [] st1;
                   browser := persistSourceContext (a_context a) (browser m);
                   loads := loads m; vote := None |}
            | question :: rest =>
                {| ui := st1; browser := browser m; loads := loads m;
                   vote := Some (mkInFlightVote a question rest []) |}
            end
        end
      else m
  | LoadSettles n now response =>
      match loads m !! n with
      | Some _ =>
          {| ui := fetchStructure_resume now response (ui m);
             browser := browser m; loads := dropNth n (loads m);
             vote := vote m |}
      | None => m
      end
  | VoteSettles response =>
      match vote m with
      | Some v =>
          match apiFetch response with
          | Returned result =>
              match remaining v with
              | [] =>
                  {| ui := handleVote_succeed (responses v ++ [result]) (ui m);
                     browser :=
                       persistSourceContext (a_context (attempt v)) (browser m);
                     loads := loads m; vote := None |}
              | question :: rest =>
                  {| ui := ui m; browser := browser m; loads := loads m;
                     vote := Some (mkInFlightVote (attempt v) question rest
                                     (responses v ++ [result])) |}
              end
          | Thrown error =>
              {| ui := handleVote_fail error (ui m); browser := browser m;
                 loads := loads m; vote := None |}
          end
      | None => m
      end
  | Reload =>
      match render (ui m) with
      | ThankYouScreen => mount (surveyId (ui m)) (browser m)
      | _ => m
      end
  end.

(** A sequence of events. *)
Definition run (m : Machine) (events : list Event) : Machine :=
  fold_left step events m.

(** The states that the component can be in. *)
Definition reachable (m : Machine) : Prop :=
  exists id b events, m = run (mount id b) events.

(** ** The address of the API and of the page *)

(** [base.replace(/\/$/, '')]: the text without its last character when
    that one is a slash. *)
Fixpoint stripTrailingSlash (s : string) : string :=
  match s with
  | EmptyString => EmptyString
  | String c rest =>
      match rest with
      | EmptyString => if Ascii.eqb c "/" then EmptyString else s
      | String _ _ => String c (stripTrailingSlash rest)
      end
  end.

(** [buildUrl], for the value of [API_BASE_URL]. *)
Definition buildUrl (API_BASE_URL path : string) : string :=
  let base := stripTrailingSlash API_BASE_URL in
  (base ++ path)%string.

(** [\d]. *)
Definition isDigit (c : ascii) : bool :=
  let n := nat_of_ascii c in (Nat.leb 48 n && Nat.leb n 57)%bool.

(** The longest run of digits at the head of a text: what a greedy [\d*]
    takes there. *)
Fixpoint takeDigits (s : string) : string :=
  match s with
  | EmptyString => EmptyString
  | String c rest =>
      if isDigit c then String c (takeDigits rest) else EmptyString
  end.

(** A text made of digits only. *)
Fixpoint allDigits (s : string) : bool :=
  match s with
  | EmptyString => true
  | String c rest => isDigit c && allDigits rest
  end.

(** The rest of [s] after the literal [p], when [s] starts with it. *)
Fixpoint stripPrefix (p s : string) : option string :=
  match p with
  | EmptyString => Some s
  | String a p' =>
      match s with
      | EmptyString => None
      | String b s' => if Ascii.eqb a b then stripPrefix p' s' else None
      end
  end.

(** [/\/surveys\/(\d+)/] tried at the head of a text: the capture. *)
Definition surveyIdHere (s : string) : option string :=
  match stripPrefix "/surveys/" s with
  | Some rest =>
      let digits := takeDigits rest in
      if String.eqb digits "" then None else Some digits
  | None => None
  end.

(** [pathname.match(/\/surveys\/(\d+)/)]: the capture of the leftmost
    match, [None] when there is no match. *)
Fixpoint matchSurveyId (pathname : string) : option string :=
  match surveyIdHere pathname with
  | Some digits => Some digits
  | None =>
      match pathname with
      | EmptyString => None
      | String _ rest => matchSurveyId rest
      end
  end.

(** ** Notions used in the statements *)

(** The members of a source context, by name. *)
Inductive Member : Type :=
| Source | Country | Region | City | DeviceType | OperatingSystem | BrowserName.

Definition member (f : Member) (c : SourceContext.t) : option string :=
  match f with
  | Source => SourceContext.source c
  | Country => SourceContext.country c
  | Region => SourceContext.state c
  | City => SourceContext.city c
  | DeviceType => SourceContext.deviceType c
  | OperatingSystem => SourceContext.operatingSystem c
  | BrowserName => SourceContext.browser c
  end.

(** The values derived from the current page alone: what the collectors
    return, before any fallback to the stored record. *)
Definition freshContext (b : Browser) : SourceContext.t :=
  let '(country, state, city) := getGeoParams b in
  let '(deviceType, operatingSystem, browser) := getDeviceContext b in
  {| SourceContext.source := getSourceParam b;
     SourceContext.country := country;
     SourceContext.state := state;
     SourceContext.city := city;
     SourceContext.deviceType := deviceType;
     SourceContext.operatingSystem := operatingSystem;
     SourceContext.browser := browser |}.

(** A value that is neither [null] nor the empty string. *)
Definition filled (v : option string) : Prop :=
  exists s, v = Some s /\ s <> "".

(** A response that [apiFetch] returns as a result. *)
Definition accepted (response : Settled VoteResponse.t)
    (result : VoteResponse.t) : Prop :=
  apiFetch response = Returned result.

(** A response at which [apiFetch] throws. *)
Definition refused (response : Settled VoteResponse.t) (error : ApiError)
  : Prop :=
  apiFetch response = Thrown error.

(** The question has no entry in the selection. *)
Definition noEntry (selected : gmap Z Z) (question : Question.t) : bool :=
  match selected !! Question.id question with
  | Some _ => false
  | None => true
  end.

(** The questions that [handleVote] counts as unanswered. *)
Definition unansweredOf (st : State) (s : SurveyStructure.t) : list Question.t :=
  List.filter
    (fun question => notSelected (selectedOptions st) (Question.id question))
    (SurveyStructure.questions s).

(** The invariant behind the feedback panels: results are stored only
    together with the thank-you flag. *)
Definition resultsWithThanks (st : State) : Prop :=
  showThankYou st = false -> voteResults st = [].

(** The two flags against what is in flight. *)
Definition flagsInStep (m : Machine) : Prop :=
  submitting (ui m) = isSome (vote m)
  /\ (loads m = [] -> structureLoading (ui m) = false).

(** The thank-you flag is on only with results in store. *)
Definition thanksWithResults (st : State) : Prop :=
  showThankYou st = true -> voteResults st <> [].

(** ** Values used in the examples *)

Module Fixtures.

Definition q1 : Question.t :=
  Question.mk 1 "Atendimento" 1
    [Option.mk 10 "Bom" true; Option.mk 11 "Ruim" true].

Definition q2 : Question.t :=
  Question.mk 2 "Limpeza" 2
    [Option.mk 0 "Boa" true; Option.mk 21 "Ruim" true].

(** Survey 1: two questions. *)
Definition survey1 : SurveyStructure.t :=
  SurveyStructure.mk 1 "Loja" None None true None [q1; q2].

(** Survey 2: one question. *)
Definition survey2 : SurveyStructure.t :=
  SurveyStructure.mk 2 "Site" None None true None
    [Question.mk 5 "Navegação" 1 [Option.mk 50 "Fácil" true]].

Definition closedSurvey : SurveyStructure.t :=
  SurveyStructure.mk 3 "Antiga" None None false None [q1].

Definition plainBrowser : Browser :=
  {| search := []; userAgent := "Mozilla/5.0 (X11; Linux x86_64) Firefox/120.0";
     storage := None; storageWritable := true |}.

Definition t0 : string := "2024-05-01T10:00:00.000Z".
Definition t1 : string := "2024-05-01T10:05:00.000Z".

(** Survey 1 on screen, both questions answered. *)
Definition answered : State :=
  {| surveyId := Some 1; structure := Some survey1;
     selectedOptions := <[2 := 21]> (<[1 := 10]> ∅);
     structureLoading := false; submitting := false;
     errorMessage := None; errorDetails := None; errorStatus := None;
     voteResults := []; voteStartedAtRef := Some t0;
     missingQuestionIds := []; showThankYou := false |}.

(** Survey 1 on screen, the first question not answered, and for the second
    one the option whose identifier is 0. *)
Definition zeroChosen : State :=
  {| surveyId := Some 1; structure := Some survey1;
     selectedOptions := <[2 := 0]> ∅;
     structureLoading := false; submitting := false;
     errorMessage := None; errorDetails := None; errorStatus := None;
     voteResults := []; voteStartedAtRef := Some t0;
     missingQuestionIds := []; showThankYou := false |}.

(** An endpoint that counts the votes it has received and accepts all. *)
Definition accepting (n : nat) (p : VotePayload.t)
  : nat * Settled VoteResponse.t :=
  (S n, Success (VoteResponse.mk (100 + Z.of_nat n) None None)).

(** An endpoint that accepts one vote and answers 500 from then on. *)
Definition failingSecond (n : nat) (p : VotePayload.t)
  : nat * Settled VoteResponse.t :=
  (S n,
   match n with
   | O => Success (VoteResponse.mk 100 None None)
   | _ => HttpFailure 500 (JObject [("message", JString "Erro interno")])
   end).


(** Survey 1 loaded at its own address, nothing in flight. *)
Definition settledAtSurvey1 : Machine :=
  run (mount (Some 1) plainBrowser) [LoadSettles 0 t0 (Success survey1)].


(** Survey 1 is loaded, both questions are answered one after the other,
    the votes are sent and accepted. *)
Definition votingEvents : list Event :=
  [LoadSettles 0 t0 (Success survey1);
   Select 1 10; Select 2 21; ClickVote t1;
   VoteSettles (Success (VoteResponse.mk 100 None None));
   VoteSettles (Success (VoteResponse.mk 101 None None))].


(** Survey 1 is loaded, both questions are answered and the submit button
    is clicked: the first vote is on its way. *)
Definition clickedEvents : list Event :=
  [LoadSettles 0 t0 (Success survey1); Select 1 10; Select 2 21; ClickVote t1].

End Fixtures.

(** ** The error normalizer *)

Lemma join_strings (sep : string) (l : list string) :
  join sep (List.map JString l) = String.concat sep l.
Proof.
  unfold join. f_equal.
  induction l as [|x l IH]; simpl; [reflexivity | now rewrite IH].
Qed.

Lemma or_else_nonempty (a : option string) (b : string) :
  b <> "" -> Js.or_else a b <> "".
Proof.
  intros Hb. destruct a as [s|]; simpl; [|exact Hb].
  destruct (String.eqb_spec s ""); assumption.
Qed.

Lemma or_else_some (s b : string) : s <> "" -> Js.or_else (Some s) b = s.
Proof.
  intros Hs. simpl. destruct (String.eqb_spec s ""); [contradiction | reflexivity].
Qed.

(** C5, as stated, fails: a body that carries a message string does not get
    it passed through when the status is 404. *)
Lemma normalizeError_404_ignores_body_message :
  let payload := JObject [("message", JString "Survey 12 was archived")] in
  bodyProp (bodyOf payload) "message" = Some (JString "Survey 12 was archived")
  /\ message (normalizeError 404 payload) = NOT_FOUND_MESSAGE
  /\ message (normalizeError 404 payload) <> "Survey 12 was archived".
Proof. repeat split. discriminate. Qed.

(** C5 (amended): the error thrown for a response that is not a success
    carries the status of the response; as details the details string of the
    body, or the elements of the details list joined with " | ", or nothing;
    as message the fixed not-found text whenever the status is 404, whatever
    the body says, and for any other status the message string of the body
    when there is one and it is not empty, the generic text otherwise. *)
Theorem normalizeError_spec (httpStatus : Z) (payload : Json) :
  let body := bodyOf payload in
  let e := normalizeError httpStatus payload in
  status e = Some httpStatus
  /\ (forall d, bodyProp body "details" = Some (JString d) -> details e = Some d)
  /\ (forall l : list string,
        bodyProp body "details" = Some (JArray (List.map JString l)) ->
        details e = Some (String.concat " | " l))
  /\ (forall items, bodyProp body "details" = Some (JArray items) ->
        details e = Some (join " | " items))
  /\ ((forall d, bodyProp body "details" <> Some (JString d)) ->
      (forall items, bodyProp body "details" <> Some (JArray items)) ->
      details e = None)
  /\ (httpStatus = 404 -> message e = NOT_FOUND_MESSAGE)
  /\ (httpStatus <> 404 ->
      forall m, bodyProp body "message" = Some (JString m) -> m <> "" ->
      message e = m)
  /\ (httpStatus <> 404 ->
      (forall m, bodyProp body "message" = Some (JString m) -> m = "") ->
      message e = GENERIC_MESSAGE).
Proof.
  intros body e. subst e. unfold normalizeError. fold body. simpl.
  split; [reflexivity|].
  split; [intros d ->; reflexivity|].
  split; [intros l ->; now rewrite join_strings|].
  split; [intros items ->; reflexivity|].
  split.
  { intros Hs Ha. destruct (bodyProp body "details") as [[ | | | d | items | ]|];
      try reflexivity; [now destruct (Hs d) | now destruct (Ha items)]. }
  split; [intros ->; reflexivity|].
  split.
  - intros Hne m -> Hm. apply Z.eqb_neq in Hne. rewrite Hne.
    now apply or_else_some.
  - intros Hne Hm. apply Z.eqb_neq in Hne. rewrite Hne.
    destruct (bodyProp body "message") as [[ | | | m | | ]|]; try reflexivity.
    now rewrite (Hm m eq_refl).
Qed.

Example normalizeError_list :
  normalizeError 422
    (JObject [("message", JString "Dados inválidos");
              ("details", JArray [JString "optionId"; JString "questionId"])])
  = {| status := Some 422; message := "Dados inválidos";
       details := Some "optionId | questionId" |}.
Proof. reflexivity. Qed.

Example normalizeError_no_body :
  normalizeError 503 JNull
  = {| status := Some 503; message := GENERIC_MESSAGE; details := None |}.
Proof. reflexivity. Qed.

(** ** The failure messages of a vote *)

Lemma statusIs_false (s : option Z) (n : Z) :
  s <> Some n -> statusIs s n = false.
Proof.
  intros Hn. destruct s as [k|]; [|reflexivity]. simpl.
  apply Z.eqb_neq. congruence.
Qed.

Lemma or_else_empty (s : string) : Js.or_else (Some s) "" = s.
Proof. simpl. destruct (String.eqb_spec s ""); congruence. Qed.

Create Rewrite HintDb mapping.
#[local] Hint Rewrite or_else_empty : mapping.
#[local] Hint Rewrite statusIs_false using assumption : mapping.

Ltac mapping :=
  unfold mapApiErrorMessage; autorewrite with mapping;
  repeat match goal with H : _ = _ |- _ => rewrite H end;
  rewrite ?orb_true_r; try reflexivity.

Lemma mapApiErrorMessage_429 (error : ApiError) :
  status error = Some 429 ->
  mapApiErrorMessage error = withMessage error TOO_MANY_MESSAGE.
Proof. intros H. unfold mapApiErrorMessage. now rewrite H. Qed.

Lemma mapApiErrorMessage_409 (error : ApiError) :
  status error = Some 409 ->
  mapApiErrorMessage error = withMessage error ALREADY_VOTED_MESSAGE.
Proof. intros H. unfold mapApiErrorMessage. rewrite H. cbn. now rewrite orb_true_r. Qed.

Lemma mapApiErrorMessage_already_voted (error : ApiError) :
  status error <> Some 429 ->
  Js.includes (Js.toLowerCase (message error)) "já recebemos um voto" = true ->
  mapApiErrorMessage error = withMessage error ALREADY_VOTED_MESSAGE.
Proof. intros H429 H. mapping. Qed.

Lemma mapApiErrorMessage_expired (error : ApiError) :
  status error <> Some 429 -> status error <> Some 409 ->
  Js.includes (Js.toLowerCase (message error)) "já recebemos um voto" = false ->
  Js.includes (Js.toLowerCase (message error)) "expirada" = true ->
  mapApiErrorMessage error = withMessage error EXPIRED_MESSAGE.
Proof. intros H429 H409 Hv He. mapping. Qed.

Lemma mapApiErrorMessage_other (error : ApiError) :
  status error <> Some 429 -> status error <> Some 409 ->
  Js.includes (Js.toLowerCase (message error)) "já recebemos um voto" = false ->
  Js.includes (Js.toLowerCase (message error)) "expirada" = false ->
  mapApiErrorMessage error = error.
Proof. intros H429 H409 Hv He. mapping. Qed.

Example mapApiErrorMessage_upper_case :
  message (mapApiErrorMessage
             {| status := Some 400; message := "JÁ RECEBEMOS UM VOTO seu";
                details := None |})
  = ALREADY_VOTED_MESSAGE.
Proof. reflexivity. Qed.

(** The message stored after a vote request answered with HTTP 404,
    whatever its body.  The API client gives the error the not-found text;
    that text contains "expirada", so the mapping replaces it by the text
    for an expired survey, and this is the message that [handleVote] stores,
    with status 404.  The page then shows the not-found screen, which does
    not print the stored message. *)
Remark vote_404_message_is_expired (payload : Json) (st : State) :
  let thrown := normalizeError 404 payload in
  let st' := handleVote_fail thrown st in
  message thrown = NOT_FOUND_MESSAGE
  /\ message (mapApiErrorMessage thrown) = EXPIRED_MESSAGE
  /\ errorMessage st' = Some EXPIRED_MESSAGE
  /\ errorStatus st' = Some 404
  /\ EXPIRED_MESSAGE <> NOT_FOUND_MESSAGE
  /\ errorMessage (fetchStructure_resume "" (HttpFailure 404 payload) st)
     = Some NOT_FOUND_MESSAGE
  /\ (showThankYou st = false -> render st' = NotFoundScreen).
Proof.
  repeat split; [discriminate|].
  intros Ht. unfold render.
  assert (showThankYou (handleVote_fail (normalizeError 404 payload) st)
          = showThankYou st) as -> by reflexivity.
  now rewrite Ht.
Qed.

(** ** The context collector *)

Example getDeviceContext_firefox_linux :
  getDeviceContext Fixtures.plainBrowser
  = (Some "desktop", Some "Linux", Some "Firefox").
Proof. reflexivity. Qed.

Example getDeviceContext_android_chrome :
  getDeviceContext
    {| search := [];
       userAgent := "Mozilla/5.0 (Linux; Android 14) Chrome/120.0 Mobile Safari/537.36";
       storage := None; storageWritable := true |}
  = (Some "mobile", Some "Android", Some "Chrome").
Proof. reflexivity. Qed.

Example getSourceParam_utm :
  getSourceParam {| search := [("utm_source", "email"); ("source", "")];
                    userAgent := ""; storage := None; storageWritable := true |}
  = Some "email".
Proof. reflexivity. Qed.

(** C8, as stated, fails: a fresh value that is the empty string is not
    null, yet the stored value is used. *)
Lemma voteContext_empty_fresh_value_ignored :
  let b := {| search := [("country", "")]; userAgent := "";
              storage := Some (SourceContext.mk None (Some "BR") None None
                                                None None None);
              storageWritable := true |} in
  member Country (freshContext b) = Some ""
  /\ member Country (voteContext b) = Some "BR".
Proof. split; reflexivity. Qed.

Lemma or_filled (a b : option string) :
  (filled a -> Js.or a b = a) /\ (~ filled a -> Js.or a b = b).
Proof.
  unfold Js.or, Js.truthy, filled. destruct a as [s|].
  - destruct (String.eqb_spec s "") as [->|Hs]; simpl; split; try reflexivity.
    + intros (s' & [= <-] & Hs'). now destruct Hs'.
    + intros Hn. destruct Hn. now exists s.
  - split; [intros (s & [=] & _) | reflexivity].
Qed.

Lemma or_null (a : option string) :
  (filled a -> Js.or a None = a) /\ (~ filled a -> Js.or a None = None).
Proof. apply or_filled. Qed.

Lemma voteContext_member (b : Browser) (f : Member) :
  member f (voteContext b)
  = Js.or (Js.or (member f (freshContext b))
                 (storedField (storage b) (member f))) None.
Proof.
  unfold voteContext, freshContext, getStoredSourceContext.
  destruct (getGeoParams b) as [[country state] city].
  destruct (getDeviceContext b) as [[deviceType operatingSystem] browser].
  destruct f; simpl; try reflexivity;
    destruct (storage b); reflexivity.
Qed.

(** ** The loop of the vote handler *)

Lemma submitAll_log {Server : Type}
    (post : Server -> VotePayload.t -> Server * Settled VoteResponse.t)
    (a : Attempt) (qs : list Question.t) :
  forall rs srv srv' events out,
    submitAll post a qs rs srv = (srv', events, out) ->
    exists k : nat,
      (k <= List.length qs)%nat
      /\ requests events = List.map (buildPayload a) (firstn k qs)
      /\ List.length (settlements events) = k
      /\ events = oneAtATime (requests events) (settlements events)
      /\ serve post srv (requests events) = (srv', settlements events)
      /\ match out with
         | Returned all =>
             k = List.length qs
             /\ exists results : list VoteResponse.t,
                 all = (rs ++ results)%list
                 /\ Forall2 accepted (settlements events) results
         | Thrown error =>
             exists oks failing results,
               settlements events = oks ++ [failing]
               /\ refused failing error
               /\ Forall2 accepted oks results
         end.
Proof.
  induction qs as [|q qs IH]; intros rs srv srv' events out H; simpl in H.
  - injection H as <- <- <-. exists 0%nat. simpl. repeat split; [lia|].
    exists []. split; [now rewrite app_nil_r | constructor].
  - destruct (post srv (buildPayload a q)) as [srv1 response] eqn:Hpost.
    destruct (apiFetch response) as [result|error] eqn:Hfetch.
    + destruct (submitAll post a qs (rs ++ [result]) srv1)
        as [[srv2 later] out'] eqn:Hrec.
      injection H as <- <- <-.
      destruct (IH _ _ _ _ _ Hrec) as (k & Hk & Hreq & Hlen & Halt & Hsrv & Hout).
      exists (S k). simpl. rewrite Hpost, Hsrv.
      repeat split; [lia | now rewrite Hreq | now rewrite Hlen | now rewrite <- Halt |].
      destruct out' as [all|error].
      * destruct Hout as (-> & results & -> & Hall). split; [reflexivity|].
        exists (result :: results). split; [now rewrite <- app_assoc|].
        now constructor.
      * destruct Hout as (oks & failing & results & Hs & Hf & Hall).
        exists (response :: oks), failing, (result :: results).
        rewrite Hs. repeat split; [assumption|]. now constructor.
    + injection H as <- <- <-. exists 1%nat. simpl. rewrite Hpost.
      repeat split; [lia|].
      exists [], response, []. repeat split; [assumption | constructor].
Qed.

Lemma filter_none {A : Type} (f : A -> bool) (l : list A) :
  Nat.ltb 0 (List.length (List.filter f l)) = false <-> Forall (fun x => f x = false) l.
Proof.
  induction l as [|x l IH]; simpl.
  - split; [constructor | reflexivity].
  - destruct (f x) eqn:Hf; simpl.
    + split; [discriminate | intros H; inversion H; congruence].
    + rewrite IH. split; [now constructor | now inversion 1].
Qed.

(** What holds when [handleVote] gets past its guards. *)
Lemma handleVote_start_some (b : Browser) (now : string) (st st1 : State)
    (a : Attempt) :
  handleVote_start b now st = (st1, Some a) ->
  exists s,
    structure st = Some s
    /\ noId (surveyId st) = false
    /\ Forall (fun q => notSelected (selectedOptions st) (Question.id q) = false)
              (SurveyStructure.questions s)
    /\ a = captureAttempt b now st s
    /\ voteResults st1 = []
    /\ errorMessage st1 = None
    /\ errorStatus st1 = errorStatus st
    /\ showThankYou st1 = false.
Proof.
  unfold handleVote_start. intros H.
  destruct (structure st) as [s|]; [|discriminate].
  destruct (noId (surveyId st)); [discriminate|].
  destruct (Nat.ltb 0 _) eqn:Hf; [discriminate|].
  injection H as <- <-. exists s. apply filter_none in Hf.
  repeat split; assumption.
Qed.

Lemma handleVote_refusing {Server : Type}
    (post : Server -> VotePayload.t -> Server * Settled VoteResponse.t)
    (b : Browser) (now : string) (srv : Server) (st st1 : State) :
  handleVote_start b now st = (st1, None) ->
  handleVote post b now srv st = mkRun st1 b srv []
  /\ verdict post b now srv st = Refused.
Proof. intros H. unfold handleVote, verdict. now rewrite H. Qed.

Lemma handleVote_started {Server : Type}
    (post : Server -> VotePayload.t -> Server * Settled VoteResponse.t)
    (b : Browser) (now : string) (srv srv' : Server) (st st1 : State)
    (a : Attempt) (events : list NetEvent) (out : Outcome (list VoteResponse.t)) :
  handleVote_start b now st = (st1, Some a) ->
  submitAll post a (SurveyStructure.questions (a_structure a)) [] srv
  = (srv', events, out) ->
  match out with
  | Returned results =>
      handleVote post b now srv st
      = mkRun (handleVote_succeed results st1)
              (persistSourceContext (a_context a) b) srv' events
      /\ verdict post b now srv st = Completed
  | Thrown error =>
      handleVote post b now srv st
      = mkRun (handleVote_fail error st1) b srv' events
      /\ verdict post b now srv st = Aborted
  end.
Proof.
  intros H1 H2. unfold handleVote, verdict. rewrite H1, H2.
  destruct out; split; reflexivity.
Qed.

Lemma mapApiErrorMessage_keeps (error : ApiError) :
  status (mapApiErrorMessage error) = status error
  /\ details (mapApiErrorMessage error) = details error.
Proof.
  unfold mapApiErrorMessage.
  destruct (statusIs (status error) 429); [split; reflexivity|].
  destruct (_ || _); [split; reflexivity|].
  destruct (Js.includes _ "expirada"); split; reflexivity.
Qed.

Lemma truthy_or_else (a : option string) (b : string) :
  b <> "" -> Js.truthy (Some (Js.or_else a b)) = true.
Proof.
  intros Hb. simpl. apply negb_true_iff, String.eqb_neq.
  now apply or_else_nonempty.
Qed.

Lemma or_null_idem (a : option string) :
  Js.or (Js.or a None) None = Js.or a None.
Proof. unfold Js.or. destruct (Js.truthy a) eqn:H; [now rewrite H | reflexivity]. Qed.

(** What is on screen after the [catch] block of [handleVote], when the
    resets before the loop have been made. *)
Lemma render_after_failure (error : ApiError) (st1 : State) :
  voteResults st1 = [] -> showThankYou st1 = false ->
  let st' := handleVote_fail error st1 in
  let shown := Js.or_else (Some (message (mapApiErrorMessage error)))
                          VOTE_FAILED_MESSAGE in
  (status error = Some 404 /\ render st' = NotFoundScreen)
  \/ (status error <> Some 404
      /\ exists p, render st' = FormScreen p
                   /\ successPanel p = None
                   /\ errorPanel p = Some (shown, Js.or (details error) None)).
Proof.
  intros Hv Ht st' shown. unfold render.
  assert (showThankYou st' = false) as -> by exact Ht.
  assert (errorStatus st' = status error) as ->
    by apply (proj1 (mapApiErrorMessage_keeps error)).
  assert (voteResults st' = []) as -> by exact Hv.
  assert (errorMessage st' = Some shown) as -> by reflexivity.
  assert (errorDetails st' = Js.or (details error) None) as ->.
  { unfold st', handleVote_fail. simpl.
    now rewrite (proj2 (mapApiErrorMessage_keeps error)). }
  assert (String.eqb shown "" = false) as Hne.
  { apply String.eqb_neq, or_else_nonempty. discriminate. }
  destruct (status error) as [k|]; simpl.
  - destruct (Z.eqb_spec k 404) as [->|Hk]; [left; split; reflexivity | right].
    split; [congruence|]. eexists. split; [reflexivity|]. simpl.
    split; [reflexivity|]. now rewrite Hne, or_null_idem.
  - right. split; [discriminate|]. eexists. split; [reflexivity|]. simpl.
    split; [reflexivity|]. now rewrite Hne, or_null_idem.
Qed.

(** C1: when the k-th vote request of an attempt fails, no request follows
    it (the requests sent are those of questions 1..k, in order), the result
    list on display is empty, the thank-you screen is off, and the state
    holds one error (message, details, status), shown as the error panel of
    the form without a success panel, or as the not-found screen when its
    status is 404. *)
Theorem failed_request_discards_results {Server : Type}
    (post : Server -> VotePayload.t -> Server * Settled VoteResponse.t)
    (b : Browser) (now : string) (srv : Server) (st : State)
    (k : nat) (response : Settled VoteResponse.t) (error : ApiError) :
  let r := handleVote post b now srv st in
  (1 <= k)%nat ->
  settlements (log r) !! (k - 1)%nat = Some response ->
  refused response error ->
  exists s,
    structure st = Some s
    /\ (k <= List.length (SurveyStructure.questions s))%nat
    /\ requests (log r)
       = List.map (buildPayload (captureAttempt b now st s))
                  (firstn k (SurveyStructure.questions s))
    /\ List.length (settlements (log r)) = k
    /\ log r = oneAtATime (requests (log r)) (settlements (log r))
    /\ verdict post b now srv st = Aborted
    /\ voteResults (final r) = []
    /\ showThankYou (final r) = false
    /\ submitting (final r) = false
    /\ errorMessage (final r)
       = Some (Js.or_else (Some (message (mapApiErrorMessage error)))
                          VOTE_FAILED_MESSAGE)
    /\ Js.truthy (errorMessage (final r)) = true
    /\ errorStatus (final r) = status error
    /\ ((status error = Some 404 /\ render (final r) = NotFoundScreen)
        \/ (status error <> Some 404
            /\ exists p,
                render (final r) = FormScreen p
                /\ successPanel p = None
                /\ errorPanel p
                   = Some (Js.or_else (Some (message (mapApiErrorMessage error)))
                                      VOTE_FAILED_MESSAGE,
                           Js.or (details error) None))).
Proof.
  intros r Hk Hlook Href.
  destruct (handleVote_start b now st) as [st1 [a|]] eqn:Hstart.
  2:{ destruct (handleVote_refusing post b now srv st st1 Hstart) as [Hr _].
      subst r. rewrite Hr in Hlook. discriminate. }
  destruct (handleVote_start_some _ _ _ _ _ Hstart)
    as (s & Hs & _ & _ & Ha & Hv & _ & _ & Ht).
  destruct (submitAll post a (SurveyStructure.questions (a_structure a)) [] srv)
    as [[srv' events] out] eqn:Hsub.
  pose proof (handleVote_started post b now srv srv' st st1 a events out
                Hstart Hsub) as Hrun.
  destruct (submitAll_log post a _ _ _ _ _ _ Hsub)
    as (n & Hn & Hreq & Hlen & Halt & _ & Hout).
  destruct out as [results|error'].
  - destruct Hrun as [Hr _]. destruct Hout as (_ & res & _ & Hall).
    subst r. rewrite Hr in Hlook. simpl in Hlook.
    destruct (Forall2_lookup_l _ _ _ _ _ Hall Hlook) as (y & _ & Hacc).
    unfold accepted, refused in *. congruence.
  - destruct Hrun as [Hr Hverdict].
    destruct Hout as (oks & failing & res & Hsett & Hfail & Hall).
    subst r. rewrite Hr in *. simpl in *.
    assert ((k - 1)%nat = List.length oks /\ response = failing) as [Hidx ->].
    { rewrite Hsett in Hlook.
      destruct (Nat.lt_ge_cases (k - 1) (List.length oks)) as [Hlt|Hge].
      - rewrite lookup_app_l in Hlook by exact Hlt.
        destruct (Forall2_lookup_l _ _ _ _ _ Hall Hlook) as (y & _ & Hacc).
        unfold accepted, refused in *. congruence.
      - rewrite lookup_app_r in Hlook by exact Hge.
        destruct (k - 1 - List.length oks)%nat as [|j] eqn:Hj;
          simpl in Hlook; [|discriminate].
        split; [lia | congruence]. }
    assert (error' = error) as -> by (unfold refused in *; congruence).
    assert (n = k) as ->.
    { rewrite <- Hlen, Hsett, length_app. simpl. lia. }
    exists s. subst a. simpl in *.
    repeat split; try assumption; try reflexivity.
    + exact (truthy_or_else (Some (message (mapApiErrorMessage error)))
               VOTE_FAILED_MESSAGE ltac:(discriminate)).
    + apply (proj1 (mapApiErrorMessage_keeps error)).
    + exact (render_after_failure error st1 Hv Ht).
Qed.

(** [failed_request_discards_results] at work: survey 1 with both questions
    answered, an endpoint that accepts the first vote and answers 500 to the
    second. *)
Lemma failed_request_discards_results_witness :
  let r := handleVote Fixtures.failingSecond Fixtures.plainBrowser Fixtures.t1
             0%nat Fixtures.answered in
  let response :=
    HttpFailure 500 (JObject [("message", JString "Erro interno")]) in
  settlements (log r) !! 1%nat = Some response
  /\ refused response
       {| status := Some 500; message := "Erro interno"; details := None |}
  /\ List.length (settlements (log r)) = 2%nat
  /\ voteResults (final r) = []
  /\ errorMessage (final r) = Some "Erro interno"
  /\ errorStatus (final r) = Some 500.
Proof.
  intros r response.
  assert (settlements (log r) !! 1%nat = Some response) as Hlook
    by reflexivity.
  assert (refused response
            {| status := Some 500; message := "Erro interno"; details := None |})
    as Href by reflexivity.
  destruct (failed_request_discards_results Fixtures.failingSecond
              Fixtures.plainBrowser Fixtures.t1 0%nat Fixtures.answered 2
              response _ (le_S _ _ (le_n 1)) Hlook Href)
    as (s & _ & _ & _ & Hlen & _ & _ & Hv & _ & _ & Hmsg & _ & Hstatus & _).
  repeat split; assumption.
Defined.

Lemma mapApiErrorMessage_pure (e1 e2 : ApiError) :
  status e1 = status e2 -> message e1 = message e2 ->
  message (mapApiErrorMessage e1) = message (mapApiErrorMessage e2).
Proof.
  intros Hs Hm. unfold mapApiErrorMessage. rewrite Hs, Hm.
  destruct (statusIs (status e2) 429); [reflexivity|].
  destruct (_ || _); [reflexivity|].
  destruct (Js.includes _ "expirada"); [reflexivity | exact Hm].
Qed.

(** The failure text on screen after the [catch] block of [handleVote]. *)
Lemma failureText_after_failure (error : ApiError) (st1 : State) :
  showThankYou st1 = false ->
  failureText (render (handleVote_fail error st1))
  = Some (if statusIs (status error) 404 then NOT_FOUND_HEADING
          else Js.or_else (Some (message (mapApiErrorMessage error)))
                          VOTE_FAILED_MESSAGE).
Proof.
  intros Ht. set (st' := handleVote_fail error st1).
  set (shown := Js.or_else (Some (message (mapApiErrorMessage error)))
                           VOTE_FAILED_MESSAGE).
  unfold render.
  assert (showThankYou st' = false) as -> by exact Ht.
  assert (errorStatus st' = status error) as ->
    by apply (proj1 (mapApiErrorMessage_keeps error)).
  assert (errorMessage st' = Some shown) as -> by reflexivity.
  assert (String.eqb shown "" = false) as Hne.
  { apply String.eqb_neq, or_else_nonempty. discriminate. }
  clearbody st' shown.
  destruct (statusIs (status error) 404); [reflexivity|].
  cbn [failureText errorPanel Js.truthy Js.or_else]. rewrite Hne. reflexivity.
Qed.

Lemma Forall2_In_l {A B : Type} (P : A -> B -> Prop) (l : list A) (l' : list B)
    (x : A) :
  Forall2 P l l' -> In x l -> exists y, P x y.
Proof.
  induction 1 as [|a b l l' Hab _ IH]; cbn; [tauto|].
  intros [<-|Hin]; [now exists b | exact (IH Hin)].
Qed.

(** A response of an attempt at which [apiFetch] throws is the last one,
    and the [catch] block runs on its error. *)
Lemma failed_vote_final {Server : Type}
    (post : Server -> VotePayload.t -> Server * Settled VoteResponse.t)
    (b : Browser) (now : string) (srv : Server) (st : State)
    (response : Settled VoteResponse.t) (error : ApiError) :
  let r := handleVote post b now srv st in
  In response (settlements (log r)) ->
  refused response error ->
  exists st1, showThankYou st1 = false /\ final r = handleVote_fail error st1.
Proof.
  intros r Hin Href.
  destruct (handleVote_start b now st) as [st1 [a|]] eqn:Hstart.
  2:{ destruct (handleVote_refusing post b now srv st st1 Hstart) as [Hr _].
      subst r. rewrite Hr in Hin. contradiction Hin. }
  destruct (handleVote_start_some _ _ _ _ _ Hstart)
    as (s & _ & _ & _ & _ & _ & _ & _ & Ht).
  destruct (submitAll post a (SurveyStructure.questions (a_structure a)) [] srv)
    as [[srv' events] out] eqn:Hsub.
  pose proof (handleVote_started post b now srv srv' st st1 a events out
                Hstart Hsub) as Hrun.
  destruct (submitAll_log post a _ _ _ _ _ _ Hsub)
    as (n & _ & _ & _ & _ & _ & Hout).
  destruct out as [results|error'].
  - destruct Hrun as [Hr _]. destruct Hout as (_ & res & _ & Hall).
    subst r. rewrite Hr in Hin. cbn [log] in Hin.
    destruct (Forall2_In_l _ _ _ _ Hall Hin) as (y & Hacc).
    unfold accepted, refused in *. congruence.
  - destruct Hrun as [Hr _].
    destruct Hout as (oks & failing & res & Hsett & Hfail & Hall).
    subst r. rewrite Hr in *. cbn [log final] in *.
    rewrite Hsett in Hin. apply in_app_or in Hin as [Hin|[<-|[]]].
    + destruct (Forall2_In_l _ _ _ _ Hall Hin) as (y & Hacc).
      unfold accepted, refused in *. congruence.
    + assert (error' = error) as -> by (unfold refused in *; congruence).
      exists st1. split; [exact Ht | reflexivity].
Qed.

(** C6: the failure text that the page shows after a vote request has
    failed is a function of the status and the message of the error that the
    API client throws: status 429 gives the text for too many requests;
    status 404 gives the text for a survey not found or expired (the
    not-found page); status 409, or a message that contains
    "já recebemos um voto" in any case of letters, gives the text for a
    vote already given; a message that contains "expirada" gives the text
    for an expired survey; any other error gives its own message, or the
    fallback text when that message is empty.  Where two cases meet, the
    status 429 or 404 decides first, then the already-voted case comes
    before the expiry case.  Two failures with the same status and the same
    message show the same text, whatever the attempt. *)
Theorem vote_failure_text {Server : Type}
    (post : Server -> VotePayload.t -> Server * Settled VoteResponse.t)
    (b : Browser) (now : string) (srv : Server) (st : State)
    (response : Settled VoteResponse.t) (error : ApiError) :
  let r := handleVote post b now srv st in
  In response (settlements (log r)) ->
  refused response error ->
  let shown := failureText (render (final r)) in
  let already :=
    Js.includes (Js.toLowerCase (message error)) "já recebemos um voto" in
  let expired := Js.includes (Js.toLowerCase (message error)) "expirada" in
  (forall httpStatus payload,
      response = HttpFailure httpStatus payload ->
      error = normalizeError httpStatus payload
      /\ status error = Some httpStatus)
  /\ (status error = Some 429 -> shown = Some TOO_MANY_MESSAGE)
  /\ (status error = Some 404 ->
      shown = Some NOT_FOUND_MESSAGE /\ render (final r) = NotFoundScreen)
  /\ (status error = Some 409 -> shown = Some ALREADY_VOTED_MESSAGE)
  /\ (status error <> Some 429 -> status error <> Some 404 ->
      already = true -> shown = Some ALREADY_VOTED_MESSAGE)
  /\ (status error <> Some 429 -> status error <> Some 404 ->
      status error <> Some 409 -> already = false -> expired = true ->
      shown = Some EXPIRED_MESSAGE)
  /\ (status error <> Some 429 -> status error <> Some 404 ->
      status error <> Some 409 -> already = false -> expired = false ->
      shown = Some (if String.eqb (message error) "" then VOTE_FAILED_MESSAGE
                    else message error))
  /\ (forall (Server' : Type)
             (post' : Server' -> VotePayload.t
                      -> Server' * Settled VoteResponse.t)
             (b' : Browser) (now' : string) (srv' : Server') (st' : State)
             (response' : Settled VoteResponse.t) (error' : ApiError),
        let r' := handleVote post' b' now' srv' st' in
        In response' (settlements (log r')) ->
        refused response' error' ->
        status error' = status error ->
        message error' = message error ->
        failureText (render (final r')) = shown).
Proof.
  intros r Hin Href shown already expired.
  destruct (failed_vote_final post b now srv st response error Hin Href)
    as (st1 & Ht & Hfinal).
  fold r in Hfinal.
  assert (shown
          = Some (if statusIs (status error) 404 then NOT_FOUND_HEADING
                  else Js.or_else (Some (message (mapApiErrorMessage error)))
                                  VOTE_FAILED_MESSAGE)) as Hshown.
  { subst shown. rewrite Hfinal. now apply failureText_after_failure. }
  split.
  { intros httpStatus payload ->. unfold refused in Href. cbn in Href.
    injection Href as <-. split; reflexivity. }
  split.
  { intros H. rewrite Hshown, H, (mapApiErrorMessage_429 error H).
    reflexivity. }
  split.
  { intros H. split; [rewrite Hshown, H; reflexivity|].
    rewrite Hfinal. unfold render.
    assert (showThankYou (handleVote_fail error st1) = false) as ->
      by exact Ht.
    assert (errorStatus (handleVote_fail error st1) = status error) as ->
      by apply (proj1 (mapApiErrorMessage_keeps error)).
    now rewrite H. }
  split.
  { intros H. rewrite Hshown, H, (mapApiErrorMessage_409 error H).
    reflexivity. }
  split.
  { intros H429 H404 Ha. rewrite Hshown, (statusIs_false _ _ H404).
    rewrite (mapApiErrorMessage_already_voted error H429 Ha). reflexivity. }
  split.
  { intros H429 H404 H409 Ha He. rewrite Hshown, (statusIs_false _ _ H404).
    rewrite (mapApiErrorMessage_expired error H429 H409 Ha He).
    reflexivity. }
  split.
  { intros H429 H404 H409 Ha He. rewrite Hshown, (statusIs_false _ _ H404).
    rewrite (mapApiErrorMessage_other error H429 H409 Ha He). reflexivity. }
  intros Server' post' b' now' srv' st' response' error' r' Hin' Href' Hs Hm.
  destruct (failed_vote_final post' b' now' srv' st' response' error'
              Hin' Href') as (st1' & Ht' & Hfinal').
  fold r' in Hfinal'.
  rewrite Hfinal', (failureText_after_failure error' st1' Ht'), Hshown.
  now rewrite Hs, (mapApiErrorMessage_pure error' error Hs Hm).
Qed.

(** [vote_failure_text] at work: survey 1 with both questions answered, the
    first vote accepted and the second answered with 500 and a message of
    the server, which is shown as it is. *)
Lemma vote_failure_text_witness :
  let r := handleVote Fixtures.failingSecond Fixtures.plainBrowser Fixtures.t1
             0%nat Fixtures.answered in
  let response :=
    HttpFailure 500 (JObject [("message", JString "Erro interno")]) in
  let error := normalizeError 500 (JObject [("message", JString "Erro interno")]) in
  In response (settlements (log r))
  /\ refused response error
  /\ failureText (render (final r)) = Some "Erro interno".
Proof.
  intros r response error.
  assert (In response (settlements (log r))) as Hin by (right; left; reflexivity).
  assert (refused response error) as Href by reflexivity.
  destruct (vote_failure_text Fixtures.failingSecond Fixtures.plainBrowser
              Fixtures.t1 0%nat Fixtures.answered response error Hin Href)
    as (_ & _ & _ & _ & _ & _ & Hother & _).
  split; [exact Hin|]. split; [exact Href|].
  apply Hother; [discriminate .. | reflexivity | reflexivity].
Defined.

(** A vote answered with 404, 429 or 409, and one whose message tells that
    the survey has expired: the text on screen. *)
Example vote_failure_texts :
  let textAfter response :=
    failureText
      (render
         (final (handleVote (fun (_ : unit) _ => (tt, response))
                            Fixtures.plainBrowser Fixtures.t1 tt
                            Fixtures.answered))) in
  textAfter (HttpFailure 404 (JObject [("message", JString "Já recebemos um voto")]))
  = Some NOT_FOUND_MESSAGE
  /\ textAfter (HttpFailure 429 (JObject [("message", JString "Pesquisa expirada")]))
     = Some TOO_MANY_MESSAGE
  /\ textAfter (HttpFailure 409 JNull) = Some ALREADY_VOTED_MESSAGE
  /\ textAfter (HttpFailure 400 (JObject [("message", JString "Já recebemos um voto")]))
     = Some ALREADY_VOTED_MESSAGE
  /\ textAfter (HttpFailure 410 (JObject [("message", JString "Pesquisa EXPIRADA")]))
     = Some EXPIRED_MESSAGE
  /\ textAfter (HttpFailure 500 JNull) = Some GENERIC_MESSAGE
  /\ textAfter (Rejected "") = Some VOTE_FAILED_MESSAGE.
Proof. vm_compute. repeat split. Qed.

(** C3: a completed attempt over a survey of N questions has sent exactly N
    requests, those of the questions in their order, each one after the one
    before had settled (the log alternates request and response, and the
    responses are those of the endpoint fed the requests one by one); the
    stored list has N results, the k-th being the one of the k-th response. *)
Theorem completed_attempt_sends_all {Server : Type}
    (post : Server -> VotePayload.t -> Server * Settled VoteResponse.t)
    (b : Browser) (now : string) (srv : Server) (st : State) :
  let r := handleVote post b now srv st in
  verdict post b now srv st = Completed ->
  exists s,
    structure st = Some s
    /\ requests (log r)
       = List.map (buildPayload (captureAttempt b now st s))
                  (SurveyStructure.questions s)
    /\ List.map VotePayload.questionId (requests (log r))
       = List.map Question.id (SurveyStructure.questions s)
    /\ List.length (requests (log r))
       = List.length (SurveyStructure.questions s)
    /\ log r = oneAtATime (requests (log r)) (settlements (log r))
    /\ serve post srv (requests (log r)) = (serverAfter r, settlements (log r))
    /\ Forall2 accepted (settlements (log r)) (voteResults (final r))
    /\ List.length (voteResults (final r))
       = List.length (SurveyStructure.questions s)
    /\ showThankYou (final r) = true.
Proof.
  intros r Hverdict.
  destruct (handleVote_start b now st) as [st1 [a|]] eqn:Hstart.
  2:{ destruct (handleVote_refusing post b now srv st st1 Hstart) as [_ Hr].
      congruence. }
  destruct (handleVote_start_some _ _ _ _ _ Hstart)
    as (s & Hs & _ & _ & Ha & _).
  destruct (submitAll post a (SurveyStructure.questions (a_structure a)) [] srv)
    as [[srv' events] out] eqn:Hsub.
  pose proof (handleVote_started post b now srv srv' st st1 a events out
                Hstart Hsub) as Hrun.
  destruct (submitAll_log post a _ _ _ _ _ _ Hsub)
    as (n & Hn & Hreq & Hlen & Halt & Hsrv & Hout).
  destruct out as [results|error]; [|destruct Hrun; congruence].
  destruct Hrun as [Hr _]. destruct Hout as (-> & res & -> & Hall).
  subst r. rewrite Hr. simpl. subst a. simpl in *.
  rewrite firstn_all in Hreq.
  exists s. repeat split; try assumption.
  - rewrite Hreq, List.map_map. reflexivity.
  - now rewrite Hreq, length_map.
  - now rewrite <- (Forall2_length _ _ _ Hall).
Qed.

(** [completed_attempt_sends_all] at work: survey 1 with both questions
    answered, an endpoint that accepts every vote. *)
Lemma completed_attempt_sends_all_witness :
  let r := handleVote Fixtures.accepting Fixtures.plainBrowser Fixtures.t1
             0%nat Fixtures.answered in
  verdict Fixtures.accepting Fixtures.plainBrowser Fixtures.t1 0%nat
    Fixtures.answered = Completed
  /\ List.map VotePayload.questionId (requests (log r)) = [1; 2]
  /\ List.map VotePayload.optionId (requests (log r)) = [Some 10; Some 21]
  /\ List.map VoteResponse.voteId (voteResults (final r)) = [100; 101]
  /\ exists s,
      structure Fixtures.answered = Some s
      /\ List.length (voteResults (final r))
         = List.length (SurveyStructure.questions s).
Proof.
  intros r.
  assert (verdict Fixtures.accepting Fixtures.plainBrowser Fixtures.t1 0%nat
            Fixtures.answered = Completed) as Hverdict by reflexivity.
  destruct (completed_attempt_sends_all Fixtures.accepting
              Fixtures.plainBrowser Fixtures.t1 0%nat Fixtures.answered
              Hverdict)
    as (s & Hs & _ & _ & _ & _ & _ & _ & Hlen & _).
  repeat split; try reflexivity.
  exists s. split; assumption.
Defined.

(** ** The context of the votes *)

(** C8 (amended): each member of the context used for the vote payloads is
    the fresh value when that value is neither null nor empty, else the
    stored value when that one is neither null nor empty, else absent; every
    payload of an attempt carries this context and a completed attempt
    writes it to the store, which keeps it when it accepts the write and
    stays as it was when it does not; stored {country: "BR"} with fresh
    {country: null, city: "SP"} gives {country: "BR", city: "SP"}. *)
Theorem voteContext_merge :
  (forall (b : Browser) (f : Member),
      let fresh := member f (freshContext b) in
      let stored := storedField (storage b) (member f) in
      let merged := member f (voteContext b) in
      (filled fresh -> merged = fresh)
      /\ (~ filled fresh -> filled stored -> merged = stored)
      /\ (~ filled fresh -> ~ filled stored -> merged = None))
  /\ (forall (Server : Type)
             (post : Server -> VotePayload.t -> Server * Settled VoteResponse.t)
             b now srv st payload,
        In payload (requests (log (handleVote post b now srv st))) ->
        VotePayload.context payload = voteContext b)
  /\ (forall (Server : Type)
             (post : Server -> VotePayload.t -> Server * Settled VoteResponse.t)
             b now srv st,
        verdict post b now srv st = Completed ->
        let after := browserAfter (handleVote post b now srv st) in
        after = persistSourceContext (voteContext b) b
        /\ (storageWritable b = true -> storage after = Some (voteContext b))
        /\ (storageWritable b = false -> after = b))
  /\ (let b := {| search := [("city", "SP")]; userAgent := "";
                  storage := Some (SourceContext.mk None (Some "BR") None None
                                                    None None None);
              storageWritable := true |} in
      member Country (freshContext b) = None
      /\ member Country (voteContext b) = Some "BR"
      /\ member City (voteContext b) = Some "SP").
Proof.
  split; [|split; [|split; [|repeat split]]].
  - intros b f fresh stored merged. subst merged. rewrite voteContext_member.
    fold fresh stored.
    destruct (or_filled fresh stored) as [Hf Hn].
    repeat split.
    + intros H. rewrite (Hf H). now apply or_null.
    + intros H1 H2. rewrite (Hn H1). now apply or_null.
    + intros H1 H2. rewrite (Hn H1). now apply or_null.
  - intros Server post b now srv st payload Hin.
    destruct (handleVote_start b now st) as [st1 [a|]] eqn:Hstart.
    2:{ destruct (handleVote_refusing post b now srv st st1 Hstart) as [Hr _].
        rewrite Hr in Hin. destruct Hin. }
    destruct (handleVote_start_some _ _ _ _ _ Hstart)
      as (s & _ & _ & _ & Ha & _).
    destruct (submitAll post a (SurveyStructure.questions (a_structure a)) [] srv)
      as [[srv' events] out] eqn:Hsub.
    pose proof (handleVote_started post b now srv srv' st st1 a events out
                  Hstart Hsub) as Hrun.
    destruct (submitAll_log post a _ _ _ _ _ _ Hsub)
      as (n & _ & Hreq & _).
    assert (log (handleVote post b now srv st) = events) as Hlog
      by (destruct out; destruct Hrun as [-> _]; reflexivity).
    rewrite Hlog, Hreq in Hin. apply in_map_iff in Hin.
    destruct Hin as (q & <- & _). subst a. reflexivity.
  - intros Server post b now srv st Hverdict.
    destruct (handleVote_start b now st) as [st1 [a|]] eqn:Hstart.
    2:{ destruct (handleVote_refusing post b now srv st st1 Hstart) as [_ Hr].
        congruence. }
    destruct (handleVote_start_some _ _ _ _ _ Hstart)
      as (s & _ & _ & _ & Ha & _).
    destruct (submitAll post a (SurveyStructure.questions (a_structure a)) [] srv)
      as [[srv' events] out] eqn:Hsub.
    pose proof (handleVote_started post b now srv srv' st st1 a events out
                  Hstart Hsub) as Hrun.
    destruct out as [results|error]; [|destruct Hrun; congruence].
    destruct Hrun as [-> _]. subst a. cbn.
    unfold persistSourceContext.
    destruct (storageWritable b); repeat split; congruence.
Qed.

(** ** The guard on unanswered questions *)

Lemma handleVote_unanswered {Server : Type}
    (post : Server -> VotePayload.t -> Server * Settled VoteResponse.t)
    (b : Browser) (now : string) (srv : Server) (st : State)
    (s : SurveyStructure.t) :
  structure st = Some s ->
  noId (surveyId st) = false ->
  Exists (fun q => notSelected (selectedOptions st) (Question.id q) = true)
         (SurveyStructure.questions s) ->
  let r := handleVote post b now srv st in
  log r = []
  /\ serverAfter r = srv
  /\ verdict post b now srv st = Refused
  /\ errorMessage (final r) = Some ANSWER_ALL_MESSAGE
  /\ errorDetails (final r) = None
  /\ errorStatus (final r) = None
  /\ missingQuestionIds (final r) = List.map Question.id (unansweredOf st s)
  /\ voteResults (final r) = voteResults st.
Proof.
  intros Hs Hid Hex r.
  assert (Nat.ltb 0 (List.length (unansweredOf st s)) = true) as Hlt.
  { destruct (Nat.ltb 0 _) eqn:H; [reflexivity|]. apply filter_none in H.
    apply Exists_exists in Hex. destruct Hex as (q & Hq & Hn).
    rewrite Forall_forall in H. specialize (H q Hq). simpl in H. congruence. }
  assert (exists st1, handleVote_start b now st = (st1, None)
                      /\ errorMessage st1 = Some ANSWER_ALL_MESSAGE
                      /\ errorDetails st1 = None
                      /\ errorStatus st1 = None
                      /\ missingQuestionIds st1
                         = List.map Question.id (unansweredOf st s)
                      /\ voteResults st1 = voteResults st)
    as (st1 & Hstart & H1 & H2 & H3 & H4 & H5).
  { unfold handleVote_start. rewrite Hs, Hid. fold (unansweredOf st s).
    rewrite Hlt. eexists. split; [reflexivity|]. repeat split. }
  destruct (handleVote_refusing post b now srv st st1 Hstart) as [Hr Hv].
  subst r. rewrite Hr. simpl. repeat split; assumption.
Qed.

(** C10: a question whose recorded selection is the option 0 is counted as
    unanswered: the attempt is refused with the validation message, no
    request is sent and the identifier of the question is in the list of
    missing questions. *)
Theorem zero_option_counts_as_unanswered {Server : Type}
    (post : Server -> VotePayload.t -> Server * Settled VoteResponse.t)
    (b : Browser) (now : string) (srv : Server) (st : State)
    (s : SurveyStructure.t) (q : Question.t) :
  structure st = Some s ->
  noId (surveyId st) = false ->
  In q (SurveyStructure.questions s) ->
  selectedOptions st !! Question.id q = Some 0 ->
  let r := handleVote post b now srv st in
  log r = []
  /\ verdict post b now srv st = Refused
  /\ errorMessage (final r) = Some ANSWER_ALL_MESSAGE
  /\ errorDetails (final r) = None
  /\ errorStatus (final r) = None
  /\ In (Question.id q) (missingQuestionIds (final r)).
Proof.
  intros Hs Hid Hq Hzero r.
  assert (notSelected (selectedOptions st) (Question.id q) = true) as Hn
    by (unfold notSelected; now rewrite Hzero).
  destruct (handleVote_unanswered post b now srv st s Hs Hid)
    as (Hlog & _ & Hv & Hm & Hd & He & Hmiss & _).
  { apply Exists_exists. exists q. split; [now apply list_elem_of_In | exact Hn]. }
  subst r. repeat split; try assumption.
  rewrite Hmiss. apply in_map. unfold unansweredOf. apply filter_In.
  now split.
Qed.

(** [zero_option_counts_as_unanswered] at work: survey 1, question 2
    answered with its option 0. *)
Lemma zero_option_counts_as_unanswered_witness :
  let st := setSelectedOptions (fun prev => <[2 := 0]> prev) Fixtures.answered in
  let r := handleVote Fixtures.accepting Fixtures.plainBrowser Fixtures.t1
             0%nat st in
  selectedOptions st !! Question.id Fixtures.q2 = Some 0
  /\ log r = []
  /\ errorMessage (final r) = Some ANSWER_ALL_MESSAGE
  /\ In (Question.id Fixtures.q2) (missingQuestionIds (final r)).
Proof.
  intros st r.
  assert (selectedOptions st !! Question.id Fixtures.q2 = Some 0) as Hzero
    by reflexivity.
  destruct (zero_option_counts_as_unanswered Fixtures.accepting
              Fixtures.plainBrowser Fixtures.t1 0%nat st Fixtures.survey1
              Fixtures.q2 eq_refl eq_refl (or_intror (or_introl eq_refl)) Hzero)
    as (Hlog & _ & Hm & _ & _ & Hin).
  repeat split; assumption.
Defined.

(** When no recorded selection is the option 0, the guard does what C2
    says: nothing is sent, the validation message is set, and the missing
    list is the list of the questions without a selection, in the order of
    the survey. *)
Lemma unanswered_guard_without_zero {Server : Type}
    (post : Server -> VotePayload.t -> Server * Settled VoteResponse.t)
    (b : Browser) (now : string) (srv : Server) (st : State)
    (s : SurveyStructure.t) :
  structure st = Some s ->
  noId (surveyId st) = false ->
  Forall (fun q => selectedOptions st !! Question.id q <> Some 0)
         (SurveyStructure.questions s) ->
  Exists (fun q => noEntry (selectedOptions st) q = true)
         (SurveyStructure.questions s) ->
  let r := handleVote post b now srv st in
  log r = []
  /\ errorMessage (final r) = Some ANSWER_ALL_MESSAGE
  /\ missingQuestionIds (final r)
     = List.map Question.id
         (List.filter (noEntry (selectedOptions st)) (SurveyStructure.questions s)).
Proof.
  intros Hs Hid Hnz Hex r.
  assert (forall q, q ∈ SurveyStructure.questions s ->
                    notSelected (selectedOptions st) (Question.id q)
                    = noEntry (selectedOptions st) q) as Hsame.
  { intros q Hq. rewrite Forall_forall in Hnz. specialize (Hnz q Hq).
    unfold notSelected, noEntry.
    destruct (selectedOptions st !! Question.id q) as [o|]; [|reflexivity].
    apply Z.eqb_neq. congruence. }
  destruct (handleVote_unanswered post b now srv st s Hs Hid)
    as (Hlog & _ & _ & Hm & _ & _ & Hmiss & _).
  { apply Exists_exists. apply Exists_exists in Hex.
    destruct Hex as (q & Hq & Hn). exists q. split; [exact Hq|].
    now rewrite Hsame. }
  subst r. repeat split; try assumption.
  rewrite Hmiss. f_equal. unfold unansweredOf.
  clear -Hsame. induction (SurveyStructure.questions s) as [|q l IH];
    [reflexivity|]. simpl.
  rewrite Hsame by constructor. rewrite IH; [reflexivity|].
  intros q' Hq'. apply Hsame. now constructor.
Qed.

(** C2, at the input where the code departs from it: survey 1 on screen,
    no selection for question 1, and for question 2 the option whose
    identifier is 0.  Only question 1 is without a selection, yet the
    missing list names both questions. *)
Theorem zero_option_listed_as_missing :
  let st := Fixtures.zeroChosen in
  let r := handleVote Fixtures.accepting Fixtures.plainBrowser Fixtures.t1
             0%nat st in
  structure st = Some Fixtures.survey1
  /\ selectedOptions st !! 1 = None
  /\ selectedOptions st !! 2 = Some 0
  /\ List.map Question.id
       (List.filter (noEntry (selectedOptions st))
                    (SurveyStructure.questions Fixtures.survey1)) = [1]
  /\ log r = []
  /\ errorMessage (final r) = Some ANSWER_ALL_MESSAGE
  /\ missingQuestionIds (final r) = [1; 2].
Proof. repeat split. Qed.

(** ** The loader *)

(** C7: when the fetched survey has [ativo = false], the structure is not
    stored, so the page shows none of its questions; the message for a
    survey that is not active is set, with neither status nor details. *)
Theorem inactive_survey_not_stored (now : string) (data : SurveyStructure.t)
    (m : Machine) (n : nat) (id : Z) :
  SurveyStructure.ativo data = false ->
  loads m !! n = Some id ->
  let st' := ui (step m (LoadSettles n now (Success data))) in
  st' = fetchStructure_resume now (Success data) (ui m)
  /\ structure st' = None
  /\ errorMessage st' = Some NOT_ACTIVE_MESSAGE
  /\ errorDetails st' = None
  /\ errorStatus st' = None
  /\ structureLoading st' = false
  /\ voteStartedAtRef st' = voteStartedAtRef (ui m)
  /\ match render st' with
     | FormScreen p =>
         questionsShown p = None
         /\ errorPanel p = Some (NOT_ACTIVE_MESSAGE, None)
     | ThankYouScreen => showThankYou (ui m) = true
     | NotFoundScreen => False
     end.
Proof.
  intros Hoff Hload st'. subst st'. simpl. rewrite Hload. simpl.
  unfold fetchStructure_resume. simpl. rewrite Hoff. simpl.
  repeat split. unfold render. simpl.
  destruct (showThankYou (ui m)); [reflexivity|]. split; reflexivity.
Qed.

(** [inactive_survey_not_stored] at work: the page opened at survey 3, which
    the server reports as not active. *)
Lemma inactive_survey_not_stored_witness :
  let m := mount (Some 3) Fixtures.plainBrowser in
  let st' := ui (step m (LoadSettles 0 Fixtures.t0
                           (Success Fixtures.closedSurvey))) in
  SurveyStructure.ativo Fixtures.closedSurvey = false
  /\ loads m !! 0%nat = Some 3
  /\ structure st' = None
  /\ errorMessage st' = Some NOT_ACTIVE_MESSAGE
  /\ errorDetails st' = None
  /\ errorStatus st' = None.
Proof.
  intros m st'.
  destruct (inactive_survey_not_stored Fixtures.t0 Fixtures.closedSurvey m
              0 3 eq_refl eq_refl)
    as (_ & H1 & H2 & H3 & H4 & _).
  repeat split; assumption.
Defined.

(** C4, as stated, fails: the identifier changes from 1 to 2 while the load
    for 1 is in flight; the response for 2 arrives, then the one for 1.
    The late response is applied: the page then shows the questions of
    survey 1 under the identifier 2. *)
Lemma stale_response_is_applied :
  let m0 := mount (Some 1) Fixtures.plainBrowser in
  let m1 := step m0 (Popstate (Some 2) []) in
  let m2 := step m1 (LoadSettles 1 Fixtures.t0 (Success Fixtures.survey2)) in
  let m3 := step m2 (LoadSettles 0 Fixtures.t1 (Success Fixtures.survey1)) in
  loads m0 = [1]
  /\ loads m1 = [1; 2]
  /\ surveyId (ui m1) = Some 2
  /\ loads m2 = [1]
  /\ structure (ui m2) = Some Fixtures.survey2
  /\ loads m3 = []
  /\ surveyId (ui m3) = Some 2
  /\ structure (ui m3) = Some Fixtures.survey1
  /\ SurveyStructure.id Fixtures.survey1 = 1
  /\ ui m3 <> ui m2
  /\ match render (ui m3) with
     | FormScreen p =>
         questionsShown p = Some (SurveyStructure.questions Fixtures.survey1)
     | _ => False
     end.
Proof. repeat split. discriminate. Qed.

Lemma resume_setSubmitting (now : string) (response : Settled SurveyStructure.t)
    (v : bool) (st : State) :
  fetchStructure_resume now response (setSubmitting v st)
  = setSubmitting v (fetchStructure_resume now response st).
Proof.
  unfold fetchStructure_resume.
  destruct (apiFetch response) as [data|err]; [|reflexivity].
  destruct (SurveyStructure.ativo data); reflexivity.
Qed.

Lemma resume_keeps_id (now : string) (response : Settled SurveyStructure.t)
    (st : State) :
  surveyId (fetchStructure_resume now response st) = surveyId st.
Proof.
  unfold fetchStructure_resume.
  destruct (apiFetch response) as [data|err]; [|reflexivity].
  destruct (SurveyStructure.ativo data); reflexivity.
Qed.

(** An identifier changes to a new one and the first response to arrive
    after the change is the one of the load started for the new identifier:
    the state is the one of a page freshly opened at that identifier after
    the same response, the [submitting] flag apart. *)
Lemma fresh_load_after_change (m : Machine) (id : option Z)
    (query : list (string * string)) (now : string)
    (response : Settled SurveyStructure.t) :
  id <> surveyId (ui m) ->
  noId id = false ->
  let m' := run m [Popstate id query;
                   LoadSettles (List.length (loads m)) now response] in
  let fresh := run (mount id (browser m)) [LoadSettles 0 now response] in
  ui m' = setSubmitting (submitting (ui m)) (ui fresh)
  /\ surveyId (ui m') = id
  /\ loads m' = loads m.
Proof.
  intros Hne Hid m' fresh. subst m' fresh.
  destruct id as [k|]; [|discriminate]. cbn in Hid.
  unfold run. cbn [fold_left].
  set (m1 := step m (Popstate (Some k) query)).
  set (m0 := mount (Some k) (browser m)).
  assert (loads m0 = [k] /\ vote m0 = None) as [Hl0 Hv0].
  { subst m0. unfold mount, runFetchEffect, fetchStructure_start. cbn.
    rewrite Hid. split; reflexivity. }
  assert (loads m1 = loads m ++ [k]
          /\ ui m1 = setSubmitting (submitting (ui m)) (ui m0)) as [Hl1 Hu1].
  { subst m1 m0. cbn [step].
    destruct (decide (Some k = surveyId (ui m))) as [Heq|_]; [contradiction|].
    unfold mount, runFetchEffect, fetchStructure_start. cbn.
    rewrite Hid. split; reflexivity. }
  assert (surveyId (ui m0) = Some k) as Hs0.
  { subst m0. unfold mount, runFetchEffect, fetchStructure_start. cbn.
    now rewrite Hid. }
  clearbody m1 m0.
  cbn [step]. rewrite Hl1, Hl0.
  rewrite lookup_app_r by lia. rewrite Nat.sub_diag. cbn.
  rewrite Hu1, resume_setSubmitting.
  repeat split.
  - cbn. now rewrite resume_keeps_id.
  - unfold dropNth. rewrite firstn_app, Nat.sub_diag, firstn_all. cbn.
    rewrite app_nil_r. rewrite skipn_all2; [now rewrite app_nil_r|].
    rewrite length_app. cbn. lia.
Qed.

(** C4 (amended): the loader has no guard against a stale response.  Every
    response of a structure request in flight is applied when it arrives,
    whatever the identifier the request was sent for and whatever the
    identifier is by then: the state becomes what the second half of
    [fetchStructure] makes of the response, which does not read the
    identifier: the structure of an active survey is stored, a survey that
    is not active or an error is reported, and the loading flag is turned
    off.  When the identifier changes
    to a new one and the first response to arrive after the change is the
    one of the load started for the new identifier, the state is the one of
    a page freshly opened at that identifier after the same response (the
    [submitting] flag apart): it reflects the outcome of the latest
    identifier alone. *)
Theorem loader_has_no_stale_guard :
  (forall (m : Machine) (n : nat) (requested : Z) (now : string)
          (response : Settled SurveyStructure.t),
      loads m !! n = Some requested ->
      let m' := step m (LoadSettles n now response) in
      ui m' = fetchStructure_resume now response (ui m)
      /\ loads m' = dropNth n (loads m)
      /\ surveyId (ui m') = surveyId (ui m)
      /\ structureLoading (ui m') = false
      /\ (forall data,
            response = Success data -> SurveyStructure.ativo data = true ->
            structure (ui m') = Some data
            /\ voteStartedAtRef (ui m') = Some now)
      /\ (forall data,
            response = Success data -> SurveyStructure.ativo data = false ->
            structure (ui m') = None
            /\ errorMessage (ui m') = Some NOT_ACTIVE_MESSAGE)
      /\ (forall error,
            apiFetch response = Thrown error ->
            errorMessage (ui m')
            = Some (Js.or_else (Some (message error)) LOAD_FAILED_MESSAGE)
            /\ errorStatus (ui m') = status error))
  /\ (forall (m : Machine) (id : option Z) (query : list (string * string))
             (now : string) (response : Settled SurveyStructure.t),
        id <> surveyId (ui m) ->
        noId id = false ->
        let m' := run m [Popstate id query;
                         LoadSettles (List.length (loads m)) now response] in
        let fresh := run (mount id (browser m)) [LoadSettles 0 now response] in
        ui m' = setSubmitting (submitting (ui m)) (ui fresh)
        /\ surveyId (ui m') = id
        /\ loads m' = loads m).
Proof.
  split.
  - intros m n requested now response Hload m'. subst m'.
    cbn [step]. rewrite Hload. cbn [ui loads].
    split; [reflexivity|]. split; [reflexivity|].
    split; [apply resume_keeps_id|].
    unfold fetchStructure_resume.
    split; [destruct (apiFetch response) as [data|err];
            [destruct (SurveyStructure.ativo data)|]; reflexivity|].
    split; [intros data -> Hon; cbn [apiFetch]; rewrite Hon; repeat split|].
    split; [intros data -> Hoff; cbn [apiFetch]; rewrite Hoff; repeat split|].
    intros error ->. repeat split.
  - intros m id query now response Hne Hid.
    exact (fresh_load_after_change m id query now response Hne Hid).
Qed.

(** [loader_has_no_stale_guard] at work.  The page is opened at survey 1
    and the identifier changes to 2 before the first response: the response
    of the request sent for 1 is applied under the identifier 2.  And with
    survey 1 on screen, the identifier changes to 2 and the structure of
    survey 2 arrives. *)
Lemma loader_has_no_stale_guard_witness :
  let m1 := run (mount (Some 1) Fixtures.plainBrowser) [Popstate (Some 2) []] in
  let stale := step m1 (LoadSettles 0 Fixtures.t0 (Success Fixtures.survey1)) in
  let m := Fixtures.settledAtSurvey1 in
  let m' := run m [Popstate (Some 2) [];
                   LoadSettles 0 Fixtures.t1 (Success Fixtures.survey2)] in
  (loads m1 !! 0%nat = Some 1
   /\ surveyId (ui m1) = Some 2
   /\ surveyId (ui stale) = Some 2
   /\ structure (ui stale) = Some Fixtures.survey1)
  /\ (Some 2 <> surveyId (ui m)
      /\ structure (ui m) = Some Fixtures.survey1
      /\ structure (ui m') = Some Fixtures.survey2
      /\ surveyId (ui m') = Some 2
      /\ loads m' = []).
Proof.
  intros m1 stale m m'.
  destruct loader_has_no_stale_guard as [Hevery Hlatest].
  assert (loads m1 !! 0%nat = Some 1) as Hload by reflexivity.
  assert (Some 2 <> surveyId (ui m)) as Hne by discriminate.
  destruct (Hevery m1 0%nat 1 Fixtures.t0 (Success Fixtures.survey1) Hload)
    as (_ & _ & Hid & _ & Hdata & _).
  destruct (Hdata Fixtures.survey1 eq_refl eq_refl) as (Hstruct & _).
  destruct (Hlatest m (Some 2) [] Fixtures.t1 (Success Fixtures.survey2)
              Hne eq_refl) as (_ & Hid' & Hloads).
  split.
  - split; [exact Hload|]. split; [reflexivity|].
    split; [exact Hid | exact Hstruct].
  - split; [exact Hne|]. split; [reflexivity|]. split; [reflexivity|].
    split; [exact Hid' | exact Hloads].
Defined.

(** ** The view *)

Lemma start_resultsWithThanks (st : State) :
  resultsWithThanks st -> resultsWithThanks (fst (fetchStructure_start st)).
Proof.
  unfold fetchStructure_start, resultsWithThanks.
  destruct (noId (surveyId st)); cbn; [tauto | reflexivity].
Qed.

Lemma resume_resultsWithThanks (now : string)
    (response : Settled SurveyStructure.t) (st : State) :
  resultsWithThanks st ->
  resultsWithThanks (fetchStructure_resume now response st).
Proof.
  unfold fetchStructure_resume, resultsWithThanks.
  destruct (apiFetch response) as [data|err]; [|cbn; tauto].
  destruct (SurveyStructure.ativo data); cbn; tauto.
Qed.

Lemma voteStart_resultsWithThanks (b : Browser) (now : string) (st : State) :
  resultsWithThanks st ->
  resultsWithThanks (fst (handleVote_start b now st)).
Proof.
  unfold handleVote_start, resultsWithThanks.
  destruct (structure st) as [s|]; [|cbn; tauto].
  destruct (noId (surveyId st)); [cbn; tauto|].
  destruct (Nat.ltb 0 _); cbn; [tauto | reflexivity].
Qed.

Lemma runFetchEffect_resultsWithThanks (m : Machine) :
  resultsWithThanks (ui m) -> resultsWithThanks (ui (runFetchEffect m)).
Proof.
  intros H. unfold runFetchEffect.
  pose proof (start_resultsWithThanks (ui m) H) as H'.
  destruct (fetchStructure_start (ui m)) as [st request]. exact H'.
Qed.

Lemma mount_resultsWithThanks (id : option Z) (b : Browser) :
  resultsWithThanks (ui (mount id b)).
Proof. apply runFetchEffect_resultsWithThanks. intros _. reflexivity. Qed.

Lemma step_resultsWithThanks (m : Machine) (e : Event) :
  resultsWithThanks (ui m) -> resultsWithThanks (ui (step m e)).
Proof.
  intros H. destruct e as [id query|qid oid|now|n now response|response|];
    cbn [step].
  - destruct (decide (id = surveyId (ui m)));
      [|apply runFetchEffect_resultsWithThanks]; intros _; reflexivity.
  - destruct (offered _ _ _); [intros _; reflexivity | exact H].
  - destruct (canSubmit _); [|exact H].
    pose proof (voteStart_resultsWithThanks (browser m) now (ui m) H) as H'.
    destruct (handleVote_start (browser m) now (ui m)) as [st1 [a|]];
      [|exact H'].
    destruct (SurveyStructure.questions (a_structure a));
      [intros Hf; discriminate Hf | exact H'].
  - destruct (loads m !! n); [|exact H].
    now apply resume_resultsWithThanks.
  - destruct (vote m) as [v|]; [|exact H].
    destruct (apiFetch response) as [result|error].
    + destruct (remaining v); [intros Hf; discriminate Hf | exact H].
    + exact H.
  - destruct (render (ui m)); try exact H. apply mount_resultsWithThanks.
Qed.

Lemma run_resultsWithThanks (events : list Event) :
  forall m, resultsWithThanks (ui m) -> resultsWithThanks (ui (run m events)).
Proof.
  induction events as [|e events IH]; intros m H; [exact H|].
  apply IH. now apply step_resultsWithThanks.
Qed.

Lemma reachable_resultsWithThanks (m : Machine) :
  reachable m -> resultsWithThanks (ui m).
Proof.
  intros (id & b & events & ->).
  apply run_resultsWithThanks, mount_resultsWithThanks.
Qed.

(** In a state that can be reached the form never shows the success
    panel: results are stored only when the thank-you screen takes over. *)
Lemma success_panel_never_on_form (m : Machine) :
  reachable m -> fst (panels (render (ui m))) = false.
Proof.
  intros H. apply reachable_resultsWithThanks in H. unfold render.
  destruct (showThankYou (ui m)) eqn:Ht; [reflexivity|].
  destruct (statusIs (errorStatus (ui m)) 404); [reflexivity|].
  cbn. now rewrite (H Ht).
Qed.

(** C9: in every state that can be reached exactly one of the five outcomes
    is on screen; the success panel and the error panel are never shown
    together; the not-found and the thank-you screens show no panel. *)
Theorem one_outcome_at_a_time (m : Machine) :
  reachable m ->
  let screen := render (ui m) in
  (exists o, active o screen = true
             /\ forall o', active o' screen = true -> o' = o)
  /\ panels screen <> (true, true)
  /\ (screen = NotFoundScreen \/ screen = ThankYouScreen ->
      panels screen = (false, false))
  /\ (showThankYou (ui m) = true -> screen = ThankYouScreen)
  /\ (showThankYou (ui m) = false -> errorStatus (ui m) = Some 404 ->
      screen = NotFoundScreen).
Proof.
  intros H screen.
  pose proof (success_panel_never_on_form m H) as Hs. fold screen in Hs.
  split; [|split; [|split; [|split]]].
  - destruct screen as [| |p].
    + exists ThankYou. split; [reflexivity|].
      intros o' Ho. destruct o'; cbn in Ho; congruence.
    + exists NotFound. split; [reflexivity|].
      intros o' Ho. destruct o'; cbn in Ho; congruence.
    + cbn in Hs. destruct (isSome (errorPanel p)) eqn:He.
      * exists FormError. cbn. rewrite He, Hs. split; [reflexivity|].
        intros o' Ho. destruct o'; cbn in Ho; rewrite ?He, ?Hs in Ho;
          cbn in Ho; congruence.
      * exists FormNeutral. cbn. rewrite He, Hs. split; [reflexivity|].
        intros o' Ho. destruct o'; cbn in Ho; rewrite ?He, ?Hs in Ho;
          cbn in Ho; congruence.
  - intros Hp. rewrite Hp in Hs. discriminate.
  - intros [-> | ->]; reflexivity.
  - intros Ht. subst screen. unfold render. now rewrite Ht.
  - intros Ht He. subst screen. unfold render. now rewrite Ht, He.
Qed.

(** [one_outcome_at_a_time] at work: the state after a completed vote on
    survey 1. *)
Lemma one_outcome_at_a_time_witness :
  let m := run (mount (Some 1) Fixtures.plainBrowser) Fixtures.votingEvents in
  reachable m
  /\ List.length (voteResults (ui m)) = 2%nat
  /\ render (ui m) = ThankYouScreen
  /\ panels (render (ui m)) <> (true, true)
  /\ exists o, active o (render (ui m)) = true
               /\ forall o', active o' (render (ui m)) = true -> o' = o.
Proof.
  intros m.
  assert (reachable m) as Hreach.
  { exists (Some 1), Fixtures.plainBrowser, Fixtures.votingEvents.
    exact eq_refl. }
  destruct (one_outcome_at_a_time m Hreach) as (Hone & Hpanels & _).
  split; [exact Hreach|]. split; [vm_compute; reflexivity|].
  split; [vm_compute; reflexivity|]. split; [exact Hpanels | exact Hone].
Defined.

(** ** The vote handler inside the machine *)

Lemma submitAll_cons {Server : Type}
    (post : Server -> VotePayload.t -> Server * Settled VoteResponse.t)
    (a : Attempt) (q : Question.t) (qs : list Question.t)
    (rs : list VoteResponse.t) (srv : Server) :
  submitAll post a (q :: qs) rs srv
  = let '(srv1, response) := post srv (buildPayload a q) in
    match apiFetch response with
    | Returned result =>
        let '(srv2, later, out) := submitAll post a qs (rs ++ [result]) srv1 in
        (srv2, Sent (buildPayload a q) :: Settles response :: later, out)
    | Thrown error =>
        (srv1, [Sent (buildPayload a q); Settles response], Thrown error)
    end.
Proof. reflexivity. Qed.



(** * Further properties of the code *)

(** ** Addresses *)

Lemma append_cons (c : ascii) (s r : string) :
  (String c s ++ r)%string = String c (s ++ r)%string.
Proof. reflexivity. Qed.

Lemma stripTrailingSlash_append (base : string) :
  stripTrailingSlash (base ++ "/")%string = base.
Proof.
  induction base as [|c rest IH]; [reflexivity|].
  destruct rest as [|d rest']; [reflexivity|].
  change ((String c (String d rest') ++ "/")%string)
    with (String c (String d (rest' ++ "/")%string)).
  change (String d (rest' ++ "/")%string)
    with ((String d rest' ++ "/")%string) in *.
  cbn [stripTrailingSlash]. cbn [String.append] in IH |- *.
  cbn [stripTrailingSlash] in IH. now rewrite IH.
Qed.

Lemma stripTrailingSlash_other (base : string) :
  (forall prefix, base <> (prefix ++ "/")%string) ->
  stripTrailingSlash base = base.
Proof.
  induction base as [|c rest IH]; intros Hno; [reflexivity|].
  destruct rest as [|d rest'].
  - cbn [stripTrailingSlash]. destruct (Ascii.eqb_spec c "/") as [->|_];
      [|reflexivity].
    now destruct (Hno ""%string).
  - change (stripTrailingSlash (String c (String d rest')))
      with (String c (stripTrailingSlash (String d rest'))).
    rewrite IH; [reflexivity|].
    intros prefix Heq. apply (Hno (String c prefix)).
    rewrite append_cons. now rewrite Heq.
Qed.

(** X1: [buildUrl] drops exactly one slash at the end of the base address
    and nothing else: a base that ends with a slash loses that slash, so it
    gives the same address as the same base written without it; a base that
    does not end with a slash is used as it is; an empty base gives the path
    itself; of two final slashes one is kept.  The path is appended
    unchanged in every case. *)
Theorem buildUrl_trailing_slash (base path : string) :
  buildUrl (base ++ "/")%string path = (base ++ path)%string
  /\ ((forall prefix, base <> (prefix ++ "/")%string) ->
      buildUrl base path = (base ++ path)%string)
  /\ buildUrl "" path = path
  /\ buildUrl ((base ++ "/") ++ "/")%string path
     = ((base ++ "/") ++ path)%string.
Proof.
  unfold buildUrl. rewrite !stripTrailingSlash_append.
  split; [reflexivity|]. split; [|split; reflexivity].
  intros Hno. now rewrite (stripTrailingSlash_other base Hno).
Qed.

Lemma no_final_slash (body : string) (c : ascii) :
  c <> "/"%char ->
  forall prefix, (body ++ String c "")%string <> (prefix ++ "/")%string.
Proof.
  intros Hc. induction body as [|a body IH]; intros [|d prefix]; cbn.
  - intros H. injection H as H. contradiction.
  - intros H. injection H as _ H. destruct prefix; discriminate H.
  - intros H. injection H as _ H. destruct body; discriminate H.
  - intros H. injection H as _ H. exact (IH prefix H).
Qed.

(** [buildUrl_trailing_slash] at work: a base address without final
    slash. *)
Lemma buildUrl_trailing_slash_witness :
  (forall prefix, "http://localhost:8080" <> (prefix ++ "/")%string)
  /\ buildUrl "http://localhost:8080" "/api/votes"
     = "http://localhost:8080/api/votes".
Proof.
  assert (forall prefix, "http://localhost:8080" <> (prefix ++ "/")%string)
    as Hno by (apply (no_final_slash "http://localhost:808" "0"); discriminate).
  split; [exact Hno|].
  exact (proj1 (proj2 (buildUrl_trailing_slash "http://localhost:8080"
                         "/api/votes")) Hno).
Defined.

Example buildUrl_localhost :
  buildUrl "http://localhost:8080/" "/api/votes"
  = "http://localhost:8080/api/votes"
  /\ buildUrl "http://localhost:8080" "/api/votes"
     = "http://localhost:8080/api/votes"
  /\ buildUrl "http://localhost:8080/v1" "/api/votes"
     = "http://localhost:8080/v1/api/votes"
  /\ buildUrl "/" "/api/votes" = "/api/votes".
Proof. repeat split. Qed.

Lemma takeDigits_run (digits rest : string) :
  allDigits digits = true -> takeDigits rest = "" ->
  takeDigits (digits ++ rest)%string = digits.
Proof.
  intros Hd Hr. induction digits as [|c digits IH]; [exact Hr|].
  cbn [allDigits] in Hd. rewrite append_cons. cbn [takeDigits].
  apply andb_true_iff in Hd as [Hc Hd].
  now rewrite Hc, (IH Hd).
Qed.

(** X2: a path that starts with "/surveys/" followed by a non-empty run of
    digits, and then by nothing or by a character that is not a digit,
    gives that run of digits, whole. *)
Theorem matchSurveyId_reads_identifier (digits rest : string) :
  allDigits digits = true ->
  digits <> "" ->
  takeDigits rest = "" ->
  matchSurveyId ("/surveys/" ++ digits ++ rest)%string = Some digits.
Proof.
  intros Hd Hne Hr.
  assert (surveyIdHere ("/surveys/" ++ digits ++ rest)%string = Some digits)
    as Hhere.
  { unfold surveyIdHere.
    change (stripPrefix "/surveys/" ("/surveys/" ++ digits ++ rest)%string)
      with (Some (digits ++ rest)%string).
    cbn beta iota zeta. rewrite (takeDigits_run _ _ Hd Hr).
    destruct (String.eqb_spec digits ""); [contradiction | reflexivity]. }
  change (("/surveys/" ++ digits ++ rest)%string)
    with (String "/" ("surveys/" ++ digits ++ rest)%string) in *.
  cbn [matchSurveyId]. now rewrite Hhere.
Qed.

(** [matchSurveyId_reads_identifier] at work: the address of survey 42 with
    a sub-path. *)
Lemma matchSurveyId_reads_identifier_witness :
  allDigits "42" = true
  /\ takeDigits "/edit" = ""
  /\ matchSurveyId "/surveys/42/edit" = Some "42".
Proof.
  split; [reflexivity|]. split; [reflexivity|].
  exact (matchSurveyId_reads_identifier "42" "/edit" eq_refl
           ltac:(discriminate) eq_refl).
Defined.

Lemma stripPrefix_prefix (p s : string) :
  String.prefix p s = false -> stripPrefix p s = None.
Proof.
  revert s. induction p as [|a p IH]; intros s H;
    [destruct s; discriminate H|].
  destruct s as [|b s]; [reflexivity|]. cbn in H |- *.
  destruct (ascii_dec a b) as [->|Hne].
  - rewrite Ascii.eqb_refl. now apply IH.
  - apply Ascii.eqb_neq in Hne. now rewrite Hne.
Qed.

(** X3: a path in which "/surveys/" does not occur gives no identifier. *)
Theorem matchSurveyId_other_path (pathname : string) :
  Js.includes pathname "/surveys/" = false ->
  matchSurveyId pathname = None.
Proof.
  induction pathname as [|c rest IH]; intros H.
  - reflexivity.
  - cbn [Js.includes] in H. apply orb_false_iff in H as [Hp Hrest].
    cbn [matchSurveyId]. unfold surveyIdHere.
    rewrite (stripPrefix_prefix _ _ Hp). now apply IH.
Qed.

(** [matchSurveyId_other_path] at work. *)
Lemma matchSurveyId_other_path_witness :
  Js.includes "/about/team" "/surveys/" = false
  /\ matchSurveyId "/about/team" = None.
Proof.
  split; [reflexivity|].
  exact (matchSurveyId_other_path "/about/team" eq_refl).
Defined.

Example matchSurveyId_edges :
  matchSurveyId "/surveys/" = None
  /\ matchSurveyId "/surveys/abc" = None
  /\ matchSurveyId "/surveys/x/surveys/7" = Some "7"
  /\ matchSurveyId "/app/surveys/007x" = Some "007".
Proof. repeat split. Qed.

(** ** Errors of the API *)

Lemma mapApiErrorMessage_nonempty (error : ApiError) :
  message error <> "" -> message (mapApiErrorMessage error) <> "".
Proof.
  intros H. unfold mapApiErrorMessage.
  destruct (statusIs (status error) 429); [discriminate|].
  destruct (_ || _); [discriminate|].
  destruct (Js.includes _ "expirada"); [discriminate | exact H].
Qed.

(** X4: the error of a response that is not a success never has an empty
    message, before and after the mapping of the vote handler; so the text
    stored by a failed load or a failed vote is the message of the error,
    never the fallback of the handler. *)
Theorem http_failure_message_nonempty (httpStatus : Z) (payload : Json)
    (now : string) (st : State) :
  let thrown := normalizeError httpStatus payload in
  message thrown <> ""
  /\ message (mapApiErrorMessage thrown) <> ""
  /\ errorMessage (fetchStructure_resume now (HttpFailure httpStatus payload) st)
     = Some (message thrown)
  /\ errorMessage (handleVote_fail thrown st)
     = Some (message (mapApiErrorMessage thrown)).
Proof.
  intros thrown.
  assert (message thrown <> "") as Hne.
  { unfold thrown, normalizeError. cbn [message].
    destruct (Z.eqb httpStatus 404); [discriminate|].
    apply or_else_nonempty. discriminate. }
  pose proof (mapApiErrorMessage_nonempty thrown Hne) as Hne'.
  repeat split; try assumption.
  - unfold fetchStructure_resume. cbn [apiFetch]. fold thrown.
    change (Some (Js.or_else (Some (message thrown)) LOAD_FAILED_MESSAGE)
            = Some (message thrown)).
    now rewrite or_else_some.
  - change (Some (Js.or_else (Some (message (mapApiErrorMessage thrown)))
                             VOTE_FAILED_MESSAGE)
            = Some (message (mapApiErrorMessage thrown))).
    now rewrite or_else_some.
Qed.

(** X5: the mapping of the vote handler is idempotent: mapping an error that
    has been mapped changes nothing. *)
Theorem mapApiErrorMessage_idempotent (error : ApiError) :
  mapApiErrorMessage (mapApiErrorMessage error) = mapApiErrorMessage error.
Proof.
  destruct (decide (status error = Some 429)) as [H429|H429].
  { rewrite (mapApiErrorMessage_429 error H429).
    now rewrite mapApiErrorMessage_429. }
  destruct (decide (status error = Some 409)) as [H409|H409].
  { rewrite (mapApiErrorMessage_409 error H409).
    now rewrite mapApiErrorMessage_409. }
  destruct (Js.includes (Js.toLowerCase (message error)) "já recebemos um voto")
    eqn:Hvoted.
  { rewrite (mapApiErrorMessage_already_voted error H429 Hvoted).
    now apply mapApiErrorMessage_other. }
  destruct (Js.includes (Js.toLowerCase (message error)) "expirada") eqn:Hexp.
  { rewrite (mapApiErrorMessage_expired error H429 H409 Hvoted Hexp).
    now apply mapApiErrorMessage_other. }
  rewrite (mapApiErrorMessage_other error H429 H409 Hvoted Hexp).
  now apply mapApiErrorMessage_other.
Qed.

(** ** Device and source context *)

Ltac split_tests :=
  repeat match goal with
         | |- context [if ?c then _ else _] => destruct c eqn:?
         end.

(** X6: the device context is a closed classification: the device type is
    "mobile" or "desktop", the operating system one of five names or none,
    the browser one of five names or none; and a user agent classified as
    Android is always a mobile one. *)
Theorem getDeviceContext_classification (b : Browser) :
  exists deviceType operatingSystem browser,
    getDeviceContext b = (Some deviceType, operatingSystem, browser)
    /\ In deviceType ["mobile"; "desktop"]
    /\ In operatingSystem
         [None; Some "Android"; Some "iOS"; Some "Windows"; Some "macOS";
          Some "Linux"]
    /\ In browser
         [None; Some "Chrome"; Some "Edge"; Some "Safari"; Some "Firefox";
          Some "Opera"]
    /\ (operatingSystem = Some "Android" -> deviceType = "mobile").
Proof.
  unfold getDeviceContext. rewrite or_else_empty.
  do 3 eexists. split; [reflexivity|].
  destruct (Js.testI "Android" (userAgent b)) eqn:Handroid.
  - rewrite orb_true_r. split; [cbn; tauto|]. split; [cbn; tauto|].
    split; [|reflexivity]. split_tests; cbn; tauto.
  - rewrite orb_false_r. split; [split_tests; cbn; tauto|].
    split; [split_tests; cbn; tauto|].
    split; [split_tests; cbn; tauto|].
    split_tests; discriminate.
Qed.

(** X7: a user agent that contains "Edg/" is classified as Edge, whatever
    else it contains; one classified as Chrome contains "Chrome/" and
    neither "Edg/" nor "OPR/"; one classified as Safari does not contain
    "Chrome/". *)
Theorem getDeviceContext_browser_order (b : Browser) :
  let ua := userAgent b in
  let browser := snd (getDeviceContext b) in
  (Js.testI "Edg/" ua = true -> browser = Some "Edge")
  /\ (browser = Some "Chrome" ->
      Js.testI "Chrome/" ua = true
      /\ Js.testI "Edg/" ua = false
      /\ Js.testI "OPR/" ua = false)
  /\ (browser = Some "Safari" -> Js.testI "Chrome/" ua = false)
  /\ (browser = Some "Opera" ->
      Js.testI "OPR/" ua = true /\ Js.testI "Firefox/" ua = false).
Proof.
  intros ua browser. subst browser. unfold getDeviceContext.
  rewrite or_else_empty. fold ua. cbn [snd].
  destruct (Js.testI "Chrome/" ua), (Js.testI "Edg/" ua),
    (Js.testI "OPR/" ua), (Js.testI "Safari" ua), (Js.testI "Firefox/" ua);
    cbn; repeat split; intros; congruence.
Qed.

Example getDeviceContext_edge_and_opera :
  snd (getDeviceContext
         {| search := [];
            userAgent := "Mozilla/5.0 (Windows NT 10.0) Chrome/120.0 Safari/537.36 Edg/120.0";
            storage := None; storageWritable := true |}) = Some "Edge"
  /\ snd (getDeviceContext
            {| search := [];
               userAgent := "Mozilla/5.0 (Windows NT 10.0) Chrome/120.0 Safari/537.36 OPR/106.0";
               storage := None; storageWritable := true |}) = Some "Opera".
Proof. split; reflexivity. Qed.

Lemma context_ext (c1 c2 : SourceContext.t) :
  (forall f, member f c1 = member f c2) -> c1 = c2.
Proof.
  intros H. destruct c1, c2.
  pose proof (H Source). pose proof (H Country). pose proof (H Region).
  pose proof (H City). pose proof (H DeviceType).
  pose proof (H OperatingSystem). pose proof (H BrowserName).
  cbn in *. congruence.
Qed.

Lemma or_absorb (a s : option string) :
  Js.or (Js.or a (Js.or (Js.or a s) None)) None = Js.or (Js.or a s) None.
Proof.
  unfold Js.or. destruct (Js.truthy a) eqn:Ha; [now rewrite Ha|].
  destruct (Js.truthy s) eqn:Hs; [now rewrite Hs|]. reflexivity.
Qed.

Lemma or_none_absorb (x : option string) :
  Js.or (Js.or None (Js.or x None)) None = Js.or x None.
Proof. unfold Js.or. cbn. destruct (Js.truthy x) eqn:Hx; [now rewrite Hx | reflexivity]. Qed.

(** X8: the device type sent with a vote is always the one derived from the
    current user agent, "mobile" or "desktop": a stored device type is never
    used. *)
Theorem voteContext_deviceType_fresh (b : Browser) :
  member DeviceType (voteContext b) = member DeviceType (freshContext b)
  /\ (member DeviceType (voteContext b) = Some "mobile"
      \/ member DeviceType (voteContext b) = Some "desktop").
Proof.
  rewrite voteContext_member.
  assert (member DeviceType (freshContext b) = Some "mobile"
          \/ member DeviceType (freshContext b) = Some "desktop") as H.
  { unfold freshContext, getGeoParams, getDeviceContext. cbn.
    destruct (_ || _); [left | right]; reflexivity. }
  destruct H as [H|H]; rewrite H; cbn; tauto.
Qed.

(** X9: the merged context is stable: merging again after it has been
    stored gives the same context, and so does a later visit with the same
    user agent and none of the five query parameters. *)
Theorem voteContext_stable :
  (forall b, voteContext (persistSourceContext (voteContext b) b) = voteContext b)
  /\ (forall b b',
        userAgent b' = userAgent b ->
        storage b' = Some (voteContext b) ->
        Forall (fun name => paramsGet (search b') name = None)
               ["source"; "utm_source"; "country"; "state"; "city"] ->
        voteContext b' = voteContext b).
Proof.
  split.
  - intros b. unfold persistSourceContext.
    destruct (storageWritable b); [|reflexivity].
    set (b' := mkBrowser (search b) (userAgent b) (Some (voteContext b)) true).
    apply context_ext. intros f.
    rewrite (voteContext_member b').
    change (freshContext b') with (freshContext b).
    change (storedField (storage b') (member f))
      with (member f (voteContext b)).
    rewrite (voteContext_member b). apply or_absorb.
  - intros b b' Hua Hst Hq. apply context_ext. intros f.
    rewrite (voteContext_member b'). rewrite Hst. cbn [storedField].
    rewrite (voteContext_member b).
    inversion Hq as [|? ? Hsource Hq1]; subst.
    inversion Hq1 as [|? ? Hutm Hq2]; subst.
    inversion Hq2 as [|? ? Hcountry Hq3]; subst.
    inversion Hq3 as [|? ? Hstate Hq4]; subst.
    inversion Hq4 as [|? ? Hcity _]; subst.
    assert (getDeviceContext b' = getDeviceContext b) as Hdev
      by (unfold getDeviceContext; now rewrite Hua).
    destruct f; unfold freshContext at 1, getGeoParams, getSourceParam;
      rewrite ?Hsource, ?Hutm, ?Hcountry, ?Hstate, ?Hcity, Hdev;
      destruct (getDeviceContext b) as [[dt os] br] eqn:Hd; cbn [member
        SourceContext.source SourceContext.country SourceContext.state
        SourceContext.city SourceContext.deviceType
        SourceContext.operatingSystem SourceContext.browser];
      try apply or_none_absorb.
    all: unfold freshContext, getGeoParams; rewrite Hd;
      cbn [member SourceContext.deviceType SourceContext.operatingSystem
             SourceContext.browser]; apply or_absorb.
Qed.

Example voteContext_next_visit :
  let first := {| search := [("utm_source", "email"); ("city", "SP")];
                  userAgent := userAgent Fixtures.plainBrowser;
                  storage := None; storageWritable := true |} in
  let later := {| search := [];
                  userAgent := userAgent Fixtures.plainBrowser;
                  storage := Some (voteContext first); storageWritable := true |} in
  voteContext later = voteContext first
  /\ member Source (voteContext later) = Some "email"
  /\ member City (voteContext later) = Some "SP".
Proof. repeat split. Qed.

(** ** The vote handler *)

(** The three ways in which [handleVote] ends. *)
Lemma handleVote_ends {Server : Type}
    (post : Server -> VotePayload.t -> Server * Settled VoteResponse.t)
    (b : Browser) (now : string) (srv : Server) (st : State) :
  let r := handleVote post b now srv st in
  (exists st1,
      handleVote_start b now st = (st1, None)
      /\ verdict post b now srv st = Refused
      /\ r = mkRun st1 b srv [])
  \/ (exists st1 s srv' events results,
         handleVote_start b now st = (st1, Some (captureAttempt b now st s))
         /\ structure st = Some s
         /\ verdict post b now srv st = Completed
         /\ submitAll post (captureAttempt b now st s)
              (SurveyStructure.questions s) [] srv
            = (srv', events, Returned results)
         /\ r = mkRun (handleVote_succeed results st1)
                      (persistSourceContext (voteContext b) b) srv' events)
  \/ (exists st1 s srv' events error,
         handleVote_start b now st = (st1, Some (captureAttempt b now st s))
         /\ structure st = Some s
         /\ verdict post b now srv st = Aborted
         /\ submitAll post (captureAttempt b now st s)
              (SurveyStructure.questions s) [] srv
            = (srv', events, Thrown error)
         /\ r = mkRun (handleVote_fail error st1) b srv' events).
Proof.
  intros r. subst r.
  destruct (handleVote_start b now st) as [st1 [a|]] eqn:Hstart.
  2:{ left. exists st1.
      destruct (handleVote_refusing post b now srv st st1 Hstart) as [Hr Hv].
      repeat split; assumption. }
  destruct (handleVote_start_some _ _ _ _ _ Hstart)
    as (s & Hs & _ & _ & Ha & _). subst a.
  destruct (submitAll post (captureAttempt b now st s)
              (SurveyStructure.questions (a_structure (captureAttempt b now st s)))
              [] srv) as [[srv' events] out] eqn:Hsub.
  pose proof (handleVote_started post b now srv srv' st st1 _ events out
                Hstart Hsub) as Hrun.
  destruct out as [results|error]; destruct Hrun as [Hr Hv]; right;
    [left | right]; exists st1, s, srv', events; eexists;
    repeat split; try eassumption.
Qed.

(** What [handleVote] leaves alone up to its loop. *)
Lemma handleVote_start_keeps (b : Browser) (now : string) (st : State) :
  let st1 := fst (handleVote_start b now st) in
  selectedOptions st1 = selectedOptions st
  /\ structure st1 = structure st
  /\ surveyId st1 = surveyId st
  /\ structureLoading st1 = structureLoading st
  /\ voteStartedAtRef st1 = voteStartedAtRef st
  /\ match snd (handleVote_start b now st) with
     | Some _ => submitting st1 = true /\ showThankYou st1 = false
                 /\ errorStatus st1 = errorStatus st
     | None => submitting st1 = submitting st
               /\ showThankYou st1 = showThankYou st
               /\ voteResults st1 = voteResults st
     end.
Proof.
  unfold handleVote_start.
  destruct (structure st) as [s|] eqn:Hs; [|cbn; rewrite Hs; repeat split].
  destruct (noId (surveyId st)); [cbn; rewrite Hs; repeat split|].
  destruct (Nat.ltb 0 _); cbn; rewrite Hs; repeat split.
Qed.

(** X10: whatever its end, [handleVote] keeps the answers, the structure,
    the identifier and the load timestamp: after a refused or a failed
    attempt the user has nothing to select again. *)
Theorem handleVote_keeps_answers {Server : Type}
    (post : Server -> VotePayload.t -> Server * Settled VoteResponse.t)
    (b : Browser) (now : string) (srv : Server) (st : State) :
  let r := handleVote post b now srv st in
  selectedOptions (final r) = selectedOptions st
  /\ structure (final r) = structure st
  /\ surveyId (final r) = surveyId st
  /\ voteStartedAtRef (final r) = voteStartedAtRef st
  /\ structureLoading (final r) = structureLoading st.
Proof.
  intros r.
  pose proof (handleVote_start_keeps b now st) as (H1 & H2 & H3 & H4 & H5 & _).
  destruct (handleVote_ends post b now srv st)
    as [(st1 & Hstart & _ & Hr)
       |[(st1 & s & srv' & events & results & Hstart & _ & _ & _ & Hr)
        |(st1 & s & srv' & events & error & Hstart & _ & _ & _ & Hr)]];
    fold r in Hr; rewrite Hr; rewrite Hstart in *; cbn in *;
    repeat split; assumption.
Qed.

(** X11: the stored context is written by a completed attempt only, and
    only as far as the store accepts the write: a completed attempt leaves
    the browser that [persistSourceContext] gives for the merged context,
    which holds that context when the store is writable and is the browser
    as it was when the write is refused; after a refused or a failed attempt
    the browser is as it was; whenever the stored context has changed, the
    attempt was completed and the store now holds the merged context; the
    query and the user agent are never changed. *)
Theorem storage_written_on_completion_only {Server : Type}
    (post : Server -> VotePayload.t -> Server * Settled VoteResponse.t)
    (b : Browser) (now : string) (srv : Server) (st : State) :
  let r := handleVote post b now srv st in
  match verdict post b now srv st with
  | Completed =>
      browserAfter r = persistSourceContext (voteContext b) b
      /\ (storageWritable b = true -> storage (browserAfter r) = Some (voteContext b))
      /\ (storageWritable b = false -> browserAfter r = b)
  | Refused | Aborted => browserAfter r = b
  end
  /\ (storage (browserAfter r) <> storage b ->
      verdict post b now srv st = Completed
      /\ storageWritable b = true
      /\ storage (browserAfter r) = Some (voteContext b))
  /\ search (browserAfter r) = search b
  /\ userAgent (browserAfter r) = userAgent b
  /\ storageWritable (browserAfter r) = storageWritable b.
Proof.
  intros r.
  destruct (handleVote_ends post b now srv st)
    as [(st1 & _ & Hv & Hr)
       |[(st1 & s & srv' & events & results & _ & _ & Hv & _ & Hr)
        |(st1 & s & srv' & events & error & _ & _ & Hv & _ & Hr)]];
    fold r in Hr; rewrite Hr, Hv; cbn [browserAfter];
    unfold persistSourceContext;
    destruct (storageWritable b) eqn:Hw; cbn;
    repeat split; try congruence; try assumption.
Qed.

(** A store that refuses the write: the attempt completes all the same,
    and the store is as it was. *)
Example refused_write_keeps_store :
  let b := {| search := [("city", "SP")];
              userAgent := userAgent Fixtures.plainBrowser;
              storage := None; storageWritable := false |} in
  let r := handleVote Fixtures.accepting b Fixtures.t1 0%nat Fixtures.answered in
  verdict Fixtures.accepting b Fixtures.t1 0%nat Fixtures.answered = Completed
  /\ showThankYou (final r) = true
  /\ browserAfter r = b
  /\ storage (browserAfter r) = None
  /\ List.map (fun p => member City (VotePayload.context p)) (requests (log r))
     = [Some "SP"; Some "SP"].
Proof. vm_compute. repeat split. Qed.




Lemma verdict_without_survey {Server : Type}
    (post : Server -> VotePayload.t -> Server * Settled VoteResponse.t)
    (b : Browser) (now : string) (srv : Server) (st : State) :
  structure st = None \/ noId (surveyId st) = true ->
  verdict post b now srv st = Refused.
Proof.
  intros H. unfold verdict, handleVote_start.
  destruct (structure st) as [s|]; [|reflexivity].
  destruct H as [H|H]; [discriminate|]. now rewrite H.
Qed.

(** X13: without a loaded structure, or without an identifier (none, or 0),
    [handleVote] sends nothing and sets the message that asks to select a
    question and an option, with neither details nor status; the missing
    list, the results and the thank-you flag stay as they were. *)
Theorem handleVote_without_survey {Server : Type}
    (post : Server -> VotePayload.t -> Server * Settled VoteResponse.t)
    (b : Browser) (now : string) (srv : Server) (st : State) :
  structure st = None \/ noId (surveyId st) = true ->
  let r := handleVote post b now srv st in
  log r = []
  /\ verdict post b now srv st = Refused
  /\ errorMessage (final r) = Some SELECT_MESSAGE
  /\ errorDetails (final r) = None
  /\ errorStatus (final r) = None
  /\ missingQuestionIds (final r) = missingQuestionIds st
  /\ voteResults (final r) = voteResults st
  /\ showThankYou (final r) = showThankYou st.
Proof.
  intros H r.
  assert (exists st1, handleVote_start b now st = (st1, None)
                      /\ errorMessage st1 = Some SELECT_MESSAGE
                      /\ errorDetails st1 = None /\ errorStatus st1 = None
                      /\ missingQuestionIds st1 = missingQuestionIds st
                      /\ voteResults st1 = voteResults st
                      /\ showThankYou st1 = showThankYou st)
    as (st1 & Hstart & H1 & H2 & H3 & H4 & H5 & H6).
  { unfold handleVote_start. destruct (structure st) as [s|].
    - destruct H as [H|H]; [discriminate|]. rewrite H.
      eexists. split; [reflexivity|]. repeat split.
    - eexists. split; [reflexivity|]. repeat split. }
  destruct (handleVote_refusing post b now srv st st1 Hstart) as [Hr Hv].
  subst r. rewrite Hr. cbn. repeat split; assumption.
Qed.

(** [handleVote_without_survey] at work: the page opened at "/surveys/0". *)
Lemma handleVote_without_survey_witness :
  let st := ui (mount (Some 0) Fixtures.plainBrowser) in
  let r := handleVote Fixtures.accepting Fixtures.plainBrowser Fixtures.t1
             0%nat st in
  noId (surveyId st) = true
  /\ log r = []
  /\ errorMessage (final r) = Some SELECT_MESSAGE.
Proof.
  intros st r.
  destruct (handleVote_without_survey Fixtures.accepting
              Fixtures.plainBrowser Fixtures.t1 0%nat st (or_intror eq_refl))
    as (Hlog & _ & Hm & _).
  repeat split; assumption.
Defined.

(** X14: [handleVote] returns at a guard exactly when there is no
    structure, or no identifier, or a question whose selection is missing
    or 0; in every other case it sends at least the vote of the first
    question, if the survey has one. *)
Theorem handleVote_refusal_conditions {Server : Type}
    (post : Server -> VotePayload.t -> Server * Settled VoteResponse.t)
    (b : Browser) (now : string) (srv : Server) (st : State) :
  (verdict post b now srv st = Refused <->
   structure st = None
   \/ noId (surveyId st) = true
   \/ exists s q, structure st = Some s
                  /\ In q (SurveyStructure.questions s)
                  /\ notSelected (selectedOptions st) (Question.id q) = true)
  /\ (verdict post b now srv st <> Refused ->
      forall s q rest, structure st = Some s ->
                       SurveyStructure.questions s = q :: rest ->
      exists later,
        requests (log (handleVote post b now srv st))
        = buildPayload (captureAttempt b now st s) q :: later).
Proof.
  split.
  - split.
    + intros Hv.
      destruct (structure st) as [s|] eqn:Hs; [|now left].
      destruct (noId (surveyId st)) eqn:Hid; [right; now left|].
      right. right.
      destruct (Nat.ltb 0 (List.length (unansweredOf st s))) eqn:Hlt.
      * destruct (unansweredOf st s) as [|q l] eqn:Hu; [discriminate|].
        assert (In q (unansweredOf st s)) as Hq by (rewrite Hu; now left).
        apply filter_In in Hq as [Hq Hn]. now exists s, q.
      * exfalso. unfold verdict, handleVote_start in Hv.
        rewrite Hs, Hid in Hv. fold (unansweredOf st s) in Hv.
        rewrite Hlt in Hv.
        destruct (submitAll _ _ _ _ _) as [[? ?] [?|?]]; discriminate.
    + intros [H|[H|(s & q & Hs & Hq & Hn)]].
      * apply verdict_without_survey. now left.
      * apply verdict_without_survey. now right.
      * destruct (noId (surveyId st)) eqn:Hid.
        { apply verdict_without_survey. now right. }
        apply (handleVote_unanswered post b now srv st s Hs Hid).
        apply Exists_exists. exists q.
        split; [now apply list_elem_of_In | exact Hn].
  - intros Hv s q rest Hs Hq.
    destruct (handleVote_ends post b now srv st)
      as [(st1 & _ & Hr & _)
         |[(st1 & s' & srv' & events & results & _ & Hs' & _ & Hsub & Hr)
          |(st1 & s' & srv' & events & error & _ & Hs' & _ & Hsub & Hr)]];
      [contradiction| |];
      assert (s' = s) as -> by congruence;
      cbv zeta in Hr; rewrite Hr; cbn [log];
      rewrite Hq, submitAll_cons in Hsub;
      destruct (post srv _) as [srv1 response];
      destruct (apiFetch response) as [result|err];
      try destruct (submitAll post _ rest _ srv1) as [[srv2 later] out];
      injection Hsub as _ <- _; eexists; reflexivity.
Qed.


(** ** Selecting an option *)

Lemma filter_map_id (f : Z -> bool) (l : list Question.t) :
  List.filter f (List.map Question.id l)
  = List.map Question.id (List.filter (fun q => f (Question.id q)) l).
Proof.
  induction l as [|q l IH]; [reflexivity|]. cbn.
  destruct (f (Question.id q)); cbn; now rewrite IH.
Qed.

Lemma filter_andb {A : Type} (g h : A -> bool) (l : list A) :
  List.filter (fun x => g x && h x) l = List.filter h (List.filter g l).
Proof.
  induction l as [|x l IH]; [reflexivity|]. cbn.
  destruct (g x); cbn; [destruct (h x)|]; now rewrite IH.
Qed.

Lemma notSelected_insert (selected : gmap Z Z) (questionId optionId x : Z) :
  optionId <> 0 ->
  notSelected (<[questionId := optionId]> selected) x
  = notSelected selected x && negb (Z.eqb x questionId).
Proof.
  intros Hne. unfold notSelected.
  destruct (Z.eqb_spec x questionId) as [->|Hx].
  - rewrite lookup_insert_eq, andb_false_r. now apply Z.eqb_neq.
  - rewrite lookup_insert_ne by congruence. now rewrite andb_true_r.
Qed.

(** X16: selecting an option that is not 0 records it for its question and
    for no other, takes exactly that question out of the questions counted
    as unanswered, and keeps the list of missing questions equal to their
    identifiers when it was so before; it clears the results and the error
    message. *)
Theorem handleChange_keeps_marks_exact (questionId optionId : Z)
    (st : State) (s : SurveyStructure.t) :
  optionId <> 0 ->
  let st' := handleChange questionId optionId st in
  selectedOptions st' !! questionId = Some optionId
  /\ (forall q, q <> questionId ->
                selectedOptions st' !! q = selectedOptions st !! q)
  /\ unansweredOf st' s
     = List.filter (fun q => negb (Z.eqb (Question.id q) questionId))
                   (unansweredOf st s)
  /\ (missingQuestionIds st = List.map Question.id (unansweredOf st s) ->
      missingQuestionIds st' = List.map Question.id (unansweredOf st' s))
  /\ voteResults st' = []
  /\ errorMessage st' = None
  /\ errorDetails st' = None.
Proof.
  intros Hne st'.
  assert (selectedOptions st' = <[questionId := optionId]> (selectedOptions st))
    as Hsel by reflexivity.
  assert (unansweredOf st' s
          = List.filter (fun q => negb (Z.eqb (Question.id q) questionId))
                        (unansweredOf st s)) as Hun.
  { unfold unansweredOf. rewrite Hsel, <- filter_andb.
    apply List.filter_ext. intros q. now apply notSelected_insert. }
  split; [rewrite Hsel; apply lookup_insert_eq|].
  split; [intros q Hq; rewrite Hsel; now apply lookup_insert_ne|].
  split; [exact Hun|].
  split; [|repeat split].
  intros Hm.
  change (missingQuestionIds st')
    with (List.filter (fun id => negb (Z.eqb id questionId))
                      (missingQuestionIds st)).
  now rewrite Hm, filter_map_id, Hun.
Qed.

(** [handleChange_keeps_marks_exact] at work: after a refused attempt on
    survey 1 with nothing selected, the first question is answered. *)
Lemma handleChange_keeps_marks_exact_witness :
  let refusedState :=
    final (handleVote Fixtures.accepting Fixtures.plainBrowser Fixtures.t1 0%nat
             (setSelectedOptions (fun _ => ∅) Fixtures.answered)) in
  let st' := handleChange 1 10 refusedState in
  missingQuestionIds refusedState = [1; 2]
  /\ missingQuestionIds st' = [2]
  /\ missingQuestionIds st'
     = List.map Question.id (unansweredOf st' Fixtures.survey1).
Proof.
  intros refusedState st'.
  destruct (handleChange_keeps_marks_exact 1 10 refusedState Fixtures.survey1
              ltac:(discriminate)) as (_ & _ & _ & Hm & _).
  split; [reflexivity|]. split; [reflexivity|]. apply Hm. reflexivity.
Defined.

(** ** Invariants of the component *)

Lemma canSubmit_idle (st : State) :
  canSubmit (render st) = true ->
  submitting st = false /\ showThankYou st = false
  /\ exists s, structure st = Some s.
Proof.
  unfold render. destruct (showThankYou st); [intros H; discriminate H|].
  destruct (statusIs (errorStatus st) 404); [intros H; discriminate H|].
  destruct (structure st) as [s|]; cbn; [|intros H; discriminate H].
  destruct (submitting st); cbn; [intros H; discriminate H|]. intros _.
  repeat split. now exists s.
Qed.

Lemma start_keeps_flags (st : State) :
  submitting (fst (fetchStructure_start st)) = submitting st.
Proof. unfold fetchStructure_start. destruct (noId (surveyId st)); reflexivity. Qed.

Lemma resume_flags (now : string) (response : Settled SurveyStructure.t)
    (st : State) :
  submitting (fetchStructure_resume now response st) = submitting st
  /\ structureLoading (fetchStructure_resume now response st) = false.
Proof.
  unfold fetchStructure_resume.
  destruct (apiFetch response) as [data|err]; [|split; reflexivity].
  destruct (SurveyStructure.ativo data); split; reflexivity.
Qed.

Lemma runFetchEffect_flags (m : Machine) :
  submitting (ui (runFetchEffect m)) = submitting (ui m)
  /\ vote (runFetchEffect m) = vote m
  /\ (loads (runFetchEffect m) = [] ->
      loads m = []
      /\ structureLoading (ui (runFetchEffect m)) = structureLoading (ui m)).
Proof.
  unfold runFetchEffect, fetchStructure_start.
  destruct (surveyId (ui m)) as [k|]; cbn [noId];
    [destruct (Z.eqb k 0)|]; cbn.
  - rewrite app_nil_r. repeat split; assumption.
  - split; [reflexivity|]. split; [reflexivity|].
    intros H. destruct (loads m); discriminate H.
  - rewrite app_nil_r. repeat split; assumption.
Qed.

Lemma mount_flagsInStep (id : option Z) (b : Browser) :
  flagsInStep (mount id b).
Proof.
  unfold mount.
  destruct (runFetchEffect_flags
              {| ui := initialState id; browser := b; loads := []; vote := None |})
    as (H1 & H2 & H3).
  split; [now rewrite H1, H2|].
  intros Hl. destruct (H3 Hl) as [_ ->]. reflexivity.
Qed.

Lemma step_flagsInStep (m : Machine) (e : Event) :
  flagsInStep m -> flagsInStep (step m e).
Proof.
  intros [Hs Hl]. destruct e as [id query|qid oid|now|n now response|response|];
    cbn [step].
  - destruct (decide (id = surveyId (ui m))); [split; assumption|].
    match goal with |- flagsInStep (runFetchEffect ?m1) =>
      destruct (runFetchEffect_flags m1) as (H1 & H2 & H3) end.
    split; [rewrite H1, H2; exact Hs|].
    intros Hnil. destruct (H3 Hnil) as [Hnil' ->]. exact (Hl Hnil').
  - destruct (offered _ _ _); split; assumption.
  - destruct (canSubmit _) eqn:Hcan; [|split; assumption].
    apply canSubmit_idle in Hcan as (Hidle & _ & _).
    pose proof (handleVote_start_keeps (browser m) now (ui m))
      as (_ & _ & _ & Hload & _ & Hflag).
    destruct (handleVote_start (browser m) now (ui m)) as [st1 [a|]];
      cbn [fst snd] in Hload, Hflag.
    + destruct Hflag as (Hsub & _).
      destruct (SurveyStructure.questions (a_structure a));
        unfold flagsInStep; cbn.
      * split; [reflexivity|]. intros Hnil. rewrite Hload. exact (Hl Hnil).
      * split; [exact Hsub|]. intros Hnil. rewrite Hload. exact (Hl Hnil).
    + destruct Hflag as (Hsub & _). unfold flagsInStep; cbn.
      split; [now rewrite Hsub|]. intros Hnil. rewrite Hload. exact (Hl Hnil).
  - destruct (loads m !! n); [|split; assumption].
    destruct (resume_flags now response (ui m)) as [H1 H2].
    unfold flagsInStep; cbn.
    split; [now rewrite H1|]. intros _. exact H2.
  - destruct (vote m) as [v|] eqn:Hv;
      [|split; [rewrite Hv; exact Hs | exact Hl]].
    destruct (apiFetch response) as [result|error].
    + destruct (remaining v); unfold flagsInStep; cbn; (split; [|exact Hl]);
        [reflexivity | exact Hs].
    + unfold flagsInStep; cbn. split; [reflexivity | exact Hl].
  - destruct (render (ui m)); try (split; assumption).
    apply mount_flagsInStep.
Qed.

Lemma run_flagsInStep (events : list Event) :
  forall m, flagsInStep m -> flagsInStep (run m events).
Proof.
  induction events as [|e events IH]; intros m H; [exact H|].
  apply IH. now apply step_flagsInStep.
Qed.

(** X17: in every state that can be reached, [submitting] is on exactly
    while a vote attempt waits for a response; a click on the submit button
    during that time does nothing, so two attempts never overlap. *)
Theorem one_attempt_at_a_time (m : Machine) :
  reachable m ->
  (submitting (ui m) = true <-> vote m <> None)
  /\ (vote m <> None -> forall now, step m (ClickVote now) = m).
Proof.
  intros (id & b & events & ->).
  destruct (run_flagsInStep events _ (mount_flagsInStep id b)) as [Hs _].
  set (m := run (mount id b) events) in *.
  assert (submitting (ui m) = true <-> vote m <> None) as Hiff.
  { rewrite Hs. destruct (vote m); cbn; split; congruence. }
  split; [exact Hiff|].
  intros Hv now. apply Hiff in Hv. cbn [step].
  destruct (canSubmit (render (ui m))) eqn:Hcan; [|reflexivity].
  apply canSubmit_idle in Hcan as (Hidle & _). congruence.
Qed.

(** X18: in every state that can be reached, the loading flag is off when
    no structure request is in flight. *)
Theorem loading_needs_a_request (m : Machine) :
  reachable m ->
  loads m = [] ->
  structureLoading (ui m) = false
  /\ match render (ui m) with
     | FormScreen p => loadingChip p = false /\ skeleton p = false
     | _ => True
     end.
Proof.
  intros (id & b & events & ->) Hnil.
  destruct (run_flagsInStep events _ (mount_flagsInStep id b)) as [_ Hl].
  specialize (Hl Hnil). split; [exact Hl|].
  unfold render. destruct (showThankYou _); [exact I|].
  destruct (statusIs _ 404); [exact I|]. cbn. now rewrite Hl.
Qed.

(** [one_attempt_at_a_time] at work: the first vote of survey 1 is on its
    way. *)
Lemma one_attempt_at_a_time_witness :
  let m := run (mount (Some 1) Fixtures.plainBrowser) Fixtures.clickedEvents in
  reachable m
  /\ submitting (ui m) = true
  /\ step m (ClickVote Fixtures.t1) = m.
Proof.
  intros m.
  assert (reachable m) as Hreach.
  { exists (Some 1), Fixtures.plainBrowser, Fixtures.clickedEvents.
    exact eq_refl. }
  destruct (one_attempt_at_a_time m Hreach) as [Hiff Hclick].
  assert (submitting (ui m) = true) as Hsub by (vm_compute; reflexivity).
  split; [exact Hreach|]. split; [exact Hsub|].
  apply Hclick, Hiff, Hsub.
Defined.

(** [loading_needs_a_request] at work: survey 1 has been loaded. *)
Lemma loading_needs_a_request_witness :
  let m := run (mount (Some 1) Fixtures.plainBrowser)
             [LoadSettles 0 Fixtures.t0 (Success Fixtures.survey1)] in
  reachable m
  /\ loads m = []
  /\ structureLoading (ui m) = false.
Proof.
  intros m.
  assert (reachable m) as Hreach.
  { exists (Some 1), Fixtures.plainBrowser,
      [LoadSettles 0 Fixtures.t0 (Success Fixtures.survey1)].
    exact eq_refl. }
  assert (loads m = []) as Hnil by (vm_compute; reflexivity).
  destruct (loading_needs_a_request m Hreach Hnil) as [Hl _].
  repeat split; assumption.
Defined.








(** ** Opening the page and loading *)

(** X19: a page opened without an identifier, or with the identifier 0,
    sends no request: it shows the form without questions, with the message
    that asks for an address of the form /surveys/{id}, and no loading
    mark. *)
Theorem mount_without_identifier (id : option Z) (b : Browser) :
  noId id = true ->
  let m := mount id b in
  loads m = []
  /\ structure (ui m) = None
  /\ render (ui m)
     = FormScreen
         {| heading := DEFAULT_HEADING; loadingChip := false;
            questionsShown := None; markedMissing := [];
            submitDisabled := true; skeleton := false;
            successPanel := None;
            errorPanel := Some (NO_URL_MESSAGE, None) |}.
Proof.
  intros Hid m. subst m.
  unfold mount, runFetchEffect, fetchStructure_start.
  cbn [ui surveyId initialState]. rewrite Hid. repeat split.
Qed.

(** [mount_without_identifier] at work: the address "/surveys/0". *)
Lemma mount_without_identifier_witness :
  noId (Some 0) = true
  /\ loads (mount (Some 0) Fixtures.plainBrowser) = []
  /\ structure (ui (mount (Some 0) Fixtures.plainBrowser)) = None.
Proof.
  destruct (mount_without_identifier (Some 0) Fixtures.plainBrowser eq_refl)
    as (H1 & H2 & _).
  repeat split; assumption.
Defined.

(** X20: when the load of a freshly opened page fails, no structure is
    stored and nothing stays in flight; a 404 puts the not-found screen on,
    any other failure shows the form without questions and without
    skeleton, with the message and the details of the error in the error
    panel. *)
Theorem load_failure_screen (id : Z) (b : Browser) (now : string)
    (response : Settled SurveyStructure.t) (error : ApiError) :
  id <> 0 ->
  apiFetch response = Thrown error ->
  let m := run (mount (Some id) b) [LoadSettles 0 now response] in
  let shown := Js.or_else (Some (message error)) LOAD_FAILED_MESSAGE in
  loads m = []
  /\ structure (ui m) = None
  /\ errorStatus (ui m) = status error
  /\ ((status error = Some 404 /\ render (ui m) = NotFoundScreen)
      \/ (status error <> Some 404
          /\ render (ui m)
             = FormScreen
                 {| heading := DEFAULT_HEADING; loadingChip := false;
                    questionsShown := None; markedMissing := [];
                    submitDisabled := true; skeleton := false;
                    successPanel := None;
                    errorPanel := Some (shown, Js.or (details error) None) |})).
Proof.
  intros Hid Hfetch m shown. subst m.
  apply Z.eqb_neq in Hid.
  unfold run, mount, runFetchEffect, fetchStructure_start.
  cbn [ui surveyId initialState noId fold_left]. rewrite Hid.
  cbn [step loads ui browser vote app]. cbn [lookup list_lookup].
  unfold fetchStructure_resume. rewrite Hfetch.
  split; [reflexivity|]. split; [reflexivity|]. split; [reflexivity|].
  match goal with |- context [render ?st] => set (st' := st) end.
  assert (String.eqb shown "" = false) as Hne.
  { apply String.eqb_neq, or_else_nonempty. discriminate. }
  unfold render.
  change (showThankYou st') with false.
  change (errorStatus st') with (status error).
  change (structure st') with (@None SurveyStructure.t).
  change (structureLoading st') with false.
  change (submitting st') with false.
  change (voteResults st') with (@nil VoteResponse.t).
  change (missingQuestionIds st') with (@nil Z).
  change (errorMessage st') with (Some shown).
  change (errorDetails st') with (Js.or (details error) None).
  cbn [Js.truthy Js.or_else List.length Nat.ltb Nat.leb orb andb negb].
  rewrite Hne, or_null_idem. cbn [negb].
  destruct (status error) as [k|]; cbn [statusIs].
  - destruct (Z.eqb_spec k 404) as [->|Hk]; [left; now split | right].
    split; [congruence | reflexivity].
  - right. split; [discriminate | reflexivity].
Qed.

(** [load_failure_screen] at work: the server answers 503 without a body. *)
Lemma load_failure_screen_witness :
  let m := run (mount (Some 1) Fixtures.plainBrowser)
             [LoadSettles 0 Fixtures.t0 (HttpFailure 503 JNull)] in
  loads m = []
  /\ structure (ui m) = None
  /\ errorStatus (ui m) = Some 503
  /\ errorMessage (ui m) = Some GENERIC_MESSAGE.
Proof.
  intros m.
  destruct (load_failure_screen 1 Fixtures.plainBrowser Fixtures.t0
              (HttpFailure 503 JNull) (normalizeError 503 JNull)
              ltac:(discriminate) eq_refl)
    as (H1 & H2 & H3 & _).
  split; [exact H1|]. split; [exact H2|]. split; [exact H3|].
  vm_compute. reflexivity.
Defined.

(** X21: on the not-found screen and on the thank-you screen there is
    nothing to select and nothing to submit: the two events change
    nothing; on the not-found screen the reload button is not there
    either. *)
Theorem terminal_screens_are_inert (m : Machine) :
  render (ui m) = NotFoundScreen \/ render (ui m) = ThankYouScreen ->
  (forall questionId optionId, step m (Select questionId optionId) = m)
  /\ (forall now, step m (ClickVote now) = m)
  /\ (render (ui m) = NotFoundScreen -> step m Reload = m).
Proof.
  intros H. repeat split; intros; cbn [step];
    destruct H as [H|H]; rewrite ?H; try reflexivity.
  match goal with H1 : render _ = NotFoundScreen |- _ => rewrite H1 in H end.
  discriminate H.
Qed.

(** [terminal_screens_are_inert] at work: a vote answered with 404. *)
Lemma terminal_screens_are_inert_witness :
  let m := run (mount (Some 1) Fixtures.plainBrowser)
             (Fixtures.clickedEvents ++ [VoteSettles (HttpFailure 404 JNull)]) in
  render (ui m) = NotFoundScreen
  /\ step m (ClickVote Fixtures.t1) = m
  /\ step m (Select 1 11) = m.
Proof.
  intros m.
  assert (render (ui m) = NotFoundScreen) as Hscreen
    by (vm_compute; reflexivity).
  destruct (terminal_screens_are_inert m (or_introl Hscreen))
    as (Hselect & Hclick & _).
  split; [exact Hscreen|]. split; [apply Hclick | apply Hselect].
Defined.

(** X22: a navigation event that leaves the identifier as it is sends no
    request and keeps the structure on screen, but clears the answers, the
    results, the error, the marks and the load timestamp. *)
Theorem popstate_to_same_identifier (m : Machine)
    (query : list (string * string)) :
  let m' := step m (Popstate (surveyId (ui m)) query) in
  loads m' = loads m
  /\ structure (ui m') = structure (ui m)
  /\ surveyId (ui m') = surveyId (ui m)
  /\ selectedOptions (ui m') = ∅
  /\ voteResults (ui m') = []
  /\ missingQuestionIds (ui m') = []
  /\ errorMessage (ui m') = None
  /\ errorStatus (ui m') = None
  /\ voteStartedAtRef (ui m') = None
  /\ showThankYou (ui m') = false.
Proof.
  intros m'. subst m'. cbn [step].
  destruct (decide (surveyId (ui m) = surveyId (ui m))) as [_|Hne];
    [|contradiction].
  repeat split.
Qed.

(** ** The thank-you screen *)

Lemma offered_on_form (st : State) (questionId optionId : Z) :
  offered (render st) questionId optionId = true -> showThankYou st = false.
Proof.
  unfold render. destruct (showThankYou st); [intros H; discriminate H|].
  reflexivity.
Qed.

Lemma canSubmit_questions (st : State) :
  canSubmit (render st) = true ->
  exists s, structure st = Some s /\ SurveyStructure.questions s <> [].
Proof.
  unfold render. destruct (showThankYou st); [intros H; discriminate H|].
  destruct (statusIs (errorStatus st) 404); [intros H; discriminate H|].
  destruct (structure st) as [s|]; cbn; [|intros H; discriminate H].
  intros H. exists s. split; [reflexivity|]. intros Hnil. rewrite Hnil in H.
  cbn in H. rewrite orb_true_r in H. discriminate H.
Qed.

Lemma runFetchEffect_thanksWithResults (m : Machine) :
  showThankYou (ui m) = false -> showThankYou (ui (runFetchEffect m)) = false.
Proof.
  unfold runFetchEffect, fetchStructure_start.
  destruct (noId (surveyId (ui m))); cbn; [tauto | reflexivity].
Qed.

Lemma step_thanksWithResults (m : Machine) (e : Event) :
  thanksWithResults (ui m) -> thanksWithResults (ui (step m e)).
Proof.
  intros H. destruct e as [id query|qid oid|now|n now response|response|];
    cbn [step].
  - assert (showThankYou (ui (if decide (id = surveyId (ui m))
              then {| ui := handlePopstate id (ui m);
                      browser := {| search := query;
                                    userAgent := userAgent (browser m);
                                    storage := storage (browser m);
                         storageWritable := storageWritable (browser m) |};
                      loads := loads m; vote := vote m |}
              else runFetchEffect
                     {| ui := handlePopstate id (ui m);
                        browser := {| search := query;
                                      userAgent := userAgent (browser m);
                                      storage := storage (browser m);
                         storageWritable := storageWritable (browser m) |};
                        loads := loads m; vote := vote m |})) = false) as Hoff.
    { destruct (decide _); [reflexivity|].
      now apply runFetchEffect_thanksWithResults. }
    intros Hon. congruence.
  - destruct (offered _ _ _) eqn:Hoff; [|exact H].
    apply offered_on_form in Hoff. intros Hon.
    change (showThankYou (ui m) = true) in Hon. congruence.
  - destruct (canSubmit _) eqn:Hcan; [|exact H].
    destruct (canSubmit_idle _ Hcan) as (_ & Hoff & _).
    destruct (canSubmit_questions _ Hcan) as (s & Hs & Hq).
    pose proof (handleVote_start_keeps (browser m) now (ui m))
      as (_ & _ & _ & _ & _ & Hflag).
    destruct (handleVote_start (browser m) now (ui m)) as [st1 [a|]] eqn:Hstart;
      cbn [fst snd] in Hflag.
    + destruct (handleVote_start_some _ _ _ _ _ Hstart)
        as (s' & Hs' & _ & _ & -> & _).
      assert (s' = s) as -> by congruence. cbn [a_structure captureAttempt].
      destruct (SurveyStructure.questions s); [contradiction|].
      destruct Hflag as (_ & Hoff1 & _). intros Hon.
      change (showThankYou st1 = true) in Hon. congruence.
    + destruct Hflag as (_ & Hoff1 & _). intros Hon.
      change (showThankYou st1 = true) in Hon. congruence.
  - destruct (loads m !! n); [|exact H].
    unfold thanksWithResults, fetchStructure_resume. cbn [ui].
    destruct (apiFetch response) as [data|err]; [|exact H].
    destruct (SurveyStructure.ativo data); exact H.
  - destruct (vote m) as [v|]; [|exact H].
    destruct (apiFetch response) as [result|error].
    + destruct (remaining v); [|exact H].
      intros _. cbn. destruct (responses v); discriminate.
    + exact H.
  - destruct (render (ui m)); try exact H.
    intros Hon. pose proof (mount_resultsWithThanks (surveyId (ui m)) (browser m)).
    assert (showThankYou (ui (mount (surveyId (ui m)) (browser m))) = false)
      as Hoff by (apply runFetchEffect_thanksWithResults; reflexivity).
    congruence.
Qed.

Lemma run_thanksWithResults (events : list Event) :
  forall m, thanksWithResults (ui m) -> thanksWithResults (ui (run m events)).
Proof.
  induction events as [|e events IH]; intros m H; [exact H|].
  apply IH. now apply step_thanksWithResults.
Qed.

(** X23: in every state that can be reached, the thank-you screen is on
    exactly when results are stored: it never shows without a recorded
    vote, and the results of a completed attempt are never kept under the
    form. *)
Theorem thanks_exactly_with_results (m : Machine) :
  reachable m ->
  (showThankYou (ui m) = true <-> voteResults (ui m) <> []).
Proof.
  intros Hreach. split.
  - destruct Hreach as (id & b & events & ->).
    apply run_thanksWithResults.
    intros Hon.
    assert (showThankYou (ui (mount id b)) = false)
      as Hoff by (apply runFetchEffect_thanksWithResults; reflexivity).
    congruence.
  - intros Hres. apply reachable_resultsWithThanks in Hreach.
    destruct (showThankYou (ui m)) eqn:Ht; [reflexivity|].
    destruct Hres. exact (Hreach Ht).
Qed.

(** [thanks_exactly_with_results] at work: the state after a completed
    vote on survey 1. *)
Lemma thanks_exactly_with_results_witness :
  let m := run (mount (Some 1) Fixtures.plainBrowser) Fixtures.votingEvents in
  reachable m
  /\ showThankYou (ui m) = true
  /\ voteResults (ui m) <> [].
Proof.
  intros m.
  assert (reachable m) as Hreach.
  { exists (Some 1), Fixtures.plainBrowser, Fixtures.votingEvents.
    exact eq_refl. }
  assert (showThankYou (ui m) = true) as Hon by (vm_compute; reflexivity).
  split; [exact Hreach|]. split; [exact Hon|].
  apply (thanks_exactly_with_results m Hreach), Hon.
Defined.
